(** * markdown-to-pdf: the conversion pipeline of [MarkdownToPDFConverter]

    A shallow embedding of [markdown_to_pdf_converter.py] and of the part of
    [main.py] that feeds it its options.

    Conventions.
    - A Python [str] and a Python [bytes] are both a [string] (a [str] stands
      for its UTF-8 encoding).
    - A call that can raise returns an [option] or a [result]; [None] and
      [Err] stand for the exception.
    - Pillow, BeautifulSoup, Markdown, requests, the file system and
      wkhtmltopdf are outside the repository: their operations are fields of
      interface classes and of a [World], and what the proofs need from them
      is stated as laws. *)

From Stdlib Require Import ZArith String Ascii List Bool Lia.
From Stdlib Require Import Floats.SpecFloat.
From stdpp Require Import base option list strings gmap.

Local Open Scope string_scope.
Local Open Scope Z_scope.

(** ** Python values *)

Abbreviation bytes := string (only parsing).

(** The character [U+0022], written without a string escape. *)
Definition dquote : string := String (ascii_of_nat 34) EmptyString.

Module Py.

(** Truthiness of a [str] / [bytes] value: empty is falsy. *)
Definition truthy (s : string) : bool :=
  match s with EmptyString => false | String _ _ => true end.

(** Truthiness of an optional value: [None] and the empty string are
    falsy. *)
Definition truthy_opt (o : option string) : bool :=
  match o with None => false | Some s => truthy s end.

(** [s.startswith(p)] *)
Definition startswith (s p : string) : bool := String.prefix p s.

(** [s.startswith((p1, p2, ...))] *)
Definition startswith_any (s : string) (ps : list string) : bool :=
  existsb (startswith s) ps.

(** [s.endswith(c)] for a one-character [c]. *)
Fixpoint endswith_char (s : string) (c : ascii) : bool :=
  match s with
  | EmptyString => false
  | String a EmptyString => Ascii.eqb a c
  | String _ r => endswith_char r c
  end.

(** [p in s] for strings. *)
Fixpoint contains (s p : string) : bool :=
  String.prefix p s ||
  match s with
  | EmptyString => false
  | String _ r => contains r p
  end.

(** [s.rfind(c)] for a one-character [c]; [None] is Python's [-1]. *)
Fixpoint rfind (c : ascii) (s : string) : option nat :=
  match s with
  | EmptyString => None
  | String a r =>
      match rfind c r with
      | Some i => Some (S i)
      | None => if Ascii.eqb a c then Some O else None
      end
  end.

(** [s[:n]] *)
Fixpoint take (n : nat) (s : string) : string :=
  match n, s with
  | O, _ => EmptyString
  | S n', EmptyString => EmptyString
  | S n', String a r => String a (take n' r)
  end.

(** [s[n:]] *)
Fixpoint drop (n : nat) (s : string) : string :=
  match n, s with
  | O, _ => s
  | S n', EmptyString => EmptyString
  | S n', String _ r => drop n' r
  end.

(** [s.split(sep)] for a one-character [sep]: never the empty list. *)
Fixpoint split (sep : ascii) (s : string) : list string :=
  match s with
  | EmptyString => [EmptyString]
  | String a r =>
      if Ascii.eqb a sep then EmptyString :: split sep r
      else match split sep r with
           | x :: xs => String a x :: xs
           | [] => [String a EmptyString]
           end
  end.

(** [sep.join(l)] *)
Fixpoint join (sep : string) (l : list string) : string :=
  match l with
  | [] => EmptyString
  | [x] => x
  | x :: xs => x ++ sep ++ join sep xs
  end.

(** [s.rstrip(c)] for a one-character [c]. *)
Fixpoint rstrip (c : ascii) (s : string) : string :=
  match s with
  | EmptyString => EmptyString
  | String a r =>
      match rstrip c r with
      | EmptyString => if Ascii.eqb a c then EmptyString else String a EmptyString
      | r' => String a r'
      end
  end.

(** [c in s] for a one-character [c]. *)
Fixpoint has_char (c : ascii) (s : string) : bool :=
  match s with
  | EmptyString => false
  | String a r => Ascii.eqb a c || has_char c r
  end.

(** [s == c * len(s)] *)
Fixpoint all_char (c : ascii) (s : string) : bool :=
  match s with
  | EmptyString => true
  | String a r => Ascii.eqb a c && all_char c r
  end.

End Py.

(** ** Python floats: IEEE 754 binary64, round to nearest even *)

Module PyFloat.

Definition prec : Z := 53.
Definition emax : Z := 1024.

Abbreviation float := spec_float (only parsing).

(** [float(n)] for an [int]: correctly rounded; [None] is the
    [OverflowError] of an [int] too large for a float. *)
Definition of_int (n : Z) : option float :=
  match binary_normalize prec emax n 0 false with
  | S754_infinity _ => None
  | f => Some f
  end.

(** The integer [n] with mantissa [|n|] and exponent [0], not rounded. *)
Definition exact_int (n : Z) : float :=
  match n with
  | Z0 => S754_zero false
  | Zpos p => S754_finite false p 0
  | Zneg p => S754_finite true p 0
  end.

(** [a / b] for two [int]s: the correctly rounded quotient.
    [None] is [ZeroDivisionError] or [OverflowError]. *)
Definition truediv (a b : Z) : option float :=
  if b =? 0 then None
  else match SFdiv prec emax (exact_int a) (exact_int b) with
       | S754_infinity _ | S754_nan => None
       | f => Some f
       end.

(** [n * x] for an [int] [n] and a [float] [x]: [float(n) * x]. *)
Definition int_mul (n : Z) (x : float) : option float :=
  match of_int n with
  | None => None
  | Some fn => Some (SFmul prec emax fn x)
  end.

(** [int(x)]: truncation toward zero; [None] is the error raised on an
    infinity or a NaN. *)
Definition to_int (x : float) : option Z :=
  match x with
  | S754_zero _ => Some 0
  | S754_finite s m e =>
      let a := if 0 <=? e then Z.shiftl (Zpos m) e else Z.shiftr (Zpos m) (- e) in
      Some (if s then - a else a)
  | S754_infinity _ | S754_nan => None
  end.

End PyFloat.

(** ** Pillow *)

(** The part of Pillow that [optimize_image] calls.  Every operation that can
    raise returns an [option]. *)
Class Pillow := {
  Image : Type;
  (** [Image.open(io.BytesIO(data))] *)
  Image_open : bytes -> option Image;
  (** [img.format]: the format the image was decoded from *)
  Image_format : Image -> option string;
  (** [img.mode] *)
  Image_mode : Image -> string;
  (** [img.width], [img.height] *)
  Image_width : Image -> Z;
  Image_height : Image -> Z;
  (** [img.convert(mode)] *)
  Image_convert : Image -> string -> option Image;
  (** [img.resize((w, h), Image.Resampling.LANCZOS)] *)
  Image_resize_lanczos : Image -> Z * Z -> option Image;
  (** [img.save(output, format=fmt, quality=q, optimize=o)] followed by
      [output.getvalue()] *)
  Image_save : Image -> string -> Z -> bool -> option bytes;
}.

(** What the proofs use of Pillow's behaviour. *)
Class PillowLaws `{Pillow} : Prop := {
  convert_size img m img' :
    Image_convert img m = Some img' ->
    Image_width img' = Image_width img /\ Image_height img' = Image_height img;
  resize_size img w h img' :
    Image_resize_lanczos img (w, h) = Some img' ->
    Image_width img' = w /\ Image_height img' = h;
  save_open img fmt q o data :
    Image_save img fmt q o = Some data ->
    exists img', Image_open data = Some img' /\
      Image_format img' = Some fmt /\
      Image_width img' = Image_width img /\
      Image_height img' = Image_height img;
}.

Section Transcoder.
Context `{Pillow}.

(** Lines 70-71: palette and alpha modes are flattened to RGB. *)
Definition normalize_mode (img : Image) : option Image :=
  if bool_decide (Image_mode img ∈ ["RGBA"; "LA"; "P"])
  then Image_convert img "RGB"
  else Some img.

(** Lines 74-75: [int(img.height * (max_width / img.width))]. *)
Definition new_height (height max_width width : Z) : option Z :=
  ratio ← PyFloat.truediv max_width width;
  x ← PyFloat.int_mul height ratio;
  PyFloat.to_int x.

(** Lines 73-76. *)
Definition downscale (img : Image) (max_width : Z) : option Image :=
  if max_width <? Image_width img then
    h ← new_height (Image_height img) max_width (Image_width img);
    Image_resize_lanczos img (max_width, h)
  else Some img.

(** The body of the [try] block, lines 68-80. *)
Definition transcode (image_data : bytes) (max_width quality : Z) : option bytes :=
  img ← Image_open image_data;
  img ← normalize_mode img;
  img ← downscale img max_width;
  Image_save img "JPEG" quality true.

(** [optimize_image(self, image_data, max_width=800, quality=85)]: any
    exception of the body yields the input. *)
Definition optimize_image (image_data : bytes) (max_width quality : Z) : bytes :=
  match transcode image_data max_width quality with
  | Some out => out
  | None => image_data
  end.

Definition default_max_width : Z := 800.
Definition default_quality : Z := 85.

End Transcoder.

(** The claimed height, [round(original_height * max_width / original_width)]:
    the integer nearest to the exact quotient, a tie going to the even
    neighbour as Python's [round] does. *)
Definition claimed_height (height max_width width : Z) : Z :=
  let n := height * max_width in
  let q := n / width in
  let r := n mod width in
  match 2 * r ?= width with
  | Lt => q
  | Gt => q + 1
  | Eq => if Z.even q then q else q + 1
  end.

(** ** Exceptions *)

(** The outcome of a call that can raise; the exception is kept as its
    message, [str(e)]. *)
Inductive result (A : Type) : Type :=
| Ok (a : A)
| Raise (e : string).
Arguments Ok {A} a.
Arguments Raise {A} e.

(** ** base64 *)

Module base64.

Definition alphabet : string :=
  "ABCDEFGHIJKLMNOPQRSTUVWXYZabcdefghijklmnopqrstuvwxyz0123456789+/".

Definition digit (n : N) : ascii :=
  match String.get (N.to_nat n) alphabet with
  | Some c => c
  | None => "="%char
  end.

(** [base64.b64encode(data).decode('utf-8')] *)
Fixpoint b64encode (data : bytes) : string :=
  match data with
  | EmptyString => EmptyString
  | String a EmptyString =>
      let x := N_of_ascii a in
      String (digit (N.shiftr x 2))
        (String (digit (N.shiftl (N.land x 3) 4)) "==")
  | String a (String b EmptyString) =>
      let x := N_of_ascii a in
      let y := N_of_ascii b in
      String (digit (N.shiftr x 2))
        (String (digit (N.lor (N.shiftl (N.land x 3) 4) (N.shiftr y 4)))
           (String (digit (N.shiftl (N.land y 15) 2)) "="))
  | String a (String b (String c rest)) =>
      let x := N_of_ascii a in
      let y := N_of_ascii b in
      let z := N_of_ascii c in
      String (digit (N.shiftr x 2))
        (String (digit (N.lor (N.shiftl (N.land x 3) 4) (N.shiftr y 4)))
           (String (digit (N.lor (N.shiftl (N.land y 15) 2) (N.shiftr z 6)))
              (String (digit (N.land z 63)) (b64encode rest))))
  end.

End base64.

(** ** os.path (POSIX flavour) *)

Module posixpath.

(** [os.path.isabs(s)] *)
Definition isabs (s : string) : bool := Py.startswith s "/".

(** [os.path.join(a, b)] *)
Definition join (a b : string) : string :=
  if Py.startswith b "/" then b
  else if negb (Py.truthy a) || Py.endswith_char a "/" then a ++ b
  else a ++ "/" ++ b.

(** [os.path.dirname(p)]: everything up to the last slash, with trailing
    slashes removed unless it consists of slashes only. *)
Definition dirname (p : string) : string :=
  let i := match Py.rfind "/" p with Some i => S i | None => O end in
  let head := Py.take i p in
  if Py.truthy head && negb (Py.all_char "/" head)
  then Py.rstrip "/" head
  else head.

End posixpath.

(** ** The world outside the process *)

(** What a path names. *)
Inductive fsnode : Type :=
| RegularFile (data : bytes)
| Directory
| Unreadable.

(** The outcome of [requests.get]: a transport error (connection refused,
    timeout, invalid URL, ...) or a response. *)
Inductive http_reply : Type :=
| TransportError (e : string)
| Response (status_code : Z) (content : bytes).

(** A value passed as a path: a [str] or a [pathlib.Path]. *)
Record PurePath : Type := { root : string; tail : list string }.

Inductive pathlike : Type :=
| PStr (s : string)
| PPath (p : PurePath).

(** One call of [pdfkit.from_file]. *)
Record render_call : Type := {
  rc_input : string;
  rc_html : string;
  rc_output : pathlike;
  rc_options : gmap string (option string);
  rc_configuration : option string;
}.

Record World : Type := {
  (** the file system: what each path string names *)
  fs : string -> option fsnode;
  (** [requests.get(url, headers=..., timeout=...)] *)
  http_get : string -> list (string * string) -> Z -> http_reply;
  (** the names [tempfile.NamedTemporaryFile] will hand out; [None] is a
      failure to create the file *)
  temp_names : list (option string);
  (** whether writing this text to this path raises (the text cannot be
      encoded, the disk is full, ...) *)
  write_raises : string -> string -> bool;
  (** whether [os.unlink] of this path raises *)
  unlink_raises : string -> bool;
  (** wkhtmltopdf on the text of an HTML file: the PDF, or the error *)
  wkhtmltopdf : string -> gmap string (option string) -> option string -> result bytes;
  (** the runs of wkhtmltopdf so far, latest first *)
  render_log : list render_call;
}.

(** [os.path.exists(p)] *)
Definition path_exists (w : World) (p : string) : bool :=
  match fs w p with Some _ => true | None => false end.

(** [open(p, 'rb')] followed by [read()]: only a readable regular file has
    bytes to give. *)
Definition read_bytes (w : World) (p : string) : result bytes :=
  match fs w p with
  | Some (RegularFile data) => Ok data
  | Some Directory => Raise "Is a directory"
  | Some Unreadable => Raise "Permission denied"
  | None => Raise "No such file or directory"
  end.

(** [Response.raise_for_status()]: client and server error codes raise. *)
Definition raise_for_status (status_code : Z) : result unit :=
  if (400 <=? status_code) && (status_code <? 600)
  then Raise "HTTPError"
  else Ok tt.

(** ** The image resolver *)

Definition user_agent_headers : list (string * string) :=
  [("User-Agent", "Mozilla/5.0 (Windows NT 10.0; Win64; x64) AppleWebKit/537.36")].

(** Line 44: whether the reference has a network scheme. *)
Definition is_remote (url : string) : bool :=
  Py.startswith_any url ["http://"; "https://"].

(** Lines 45-48: the path a non-network reference stands for. *)
Definition local_path (url : string) (base_path : option string) : string :=
  match base_path with
  | Some base =>
      if Py.truthy base && negb (posixpath.isabs url)
      then posixpath.join (posixpath.dirname base) url
      else url
  | None => url
  end.

(** The body of the [try] block of [download_image], lines 44-61. *)
Definition download_image_body (w : World) (url : string) (base_path : option string)
  : result (option bytes) :=
  if negb (is_remote url) then
    if path_exists w (local_path url base_path) then
      match read_bytes w (local_path url base_path) with
      | Ok data => Ok (Some data)
      | Raise e => Raise e
      end
    else Ok None
  else
    match http_get w url user_agent_headers 30 with
    | TransportError e => Raise e
    | Response status_code content =>
        match raise_for_status status_code with
        | Raise e => Raise e
        | Ok _ => Ok (Some content)
        end
    end.

(** [download_image(self, url, base_path=None)]: [except Exception] turns
    every exception into [None]. *)
Definition download_image (w : World) (url : string) (base_path : option string)
  : option bytes :=
  match download_image_body w url base_path with
  | Ok r => r
  | Raise _ => None
  end.

(** ** BeautifulSoup *)

(** A tag's attributes: a Python [dict], in insertion order. *)
Abbreviation attrs := (list (string * string)) (only parsing).

#[warnings="-register-all"]
Inductive node : Type :=
| Text (s : string)
| Tag (name : string) (attributes : attrs) (children : list node).

(** [BeautifulSoup(html, 'html.parser')] and [str(soup)]. *)
Class BeautifulSoup := {
  soup_parse : string -> list node;
  soup_str : list node -> string;
}.

Module Attrs.

(** [tag.get(k)] *)
Fixpoint get (k : string) (a : attrs) : option string :=
  match a with
  | [] => None
  | (k', v) :: r => if String.eqb k' k then Some v else get k r
  end.

(** [tag[k] = v]: an existing key keeps its place, a new one goes last. *)
Fixpoint set (k v : string) (a : attrs) : attrs :=
  match a with
  | [] => [(k, v)]
  | (k', v') :: r =>
      if String.eqb k' k then (k, v) :: r else (k', v') :: set k v r
  end.

End Attrs.

(** ** The image embedder *)

Section Embedder.
Context `{Pillow}.
Variable w : World.
Variable base_path : option string.

Definition data_uri_prefix : string := "data:image/jpeg;base64,".
Definition responsive_style : string := "max-width: 100%; height: auto;".

(** Lines 95-102: what is done to a tag whose image is available. *)
Definition rewrite_img (image_data : bytes) (a : attrs) : attrs :=
  let optimized_data := optimize_image image_data default_max_width default_quality in
  let base64_data := base64.b64encode optimized_data in
  let a := Attrs.set "src" (data_uri_prefix ++ base64_data) a in
  let style := default "" (Attrs.get "style" a) in
  let style :=
    if negb (Py.contains style "max-width") then style ++ responsive_style else style in
  Attrs.set "style" style a.

(** The body of the loop, lines 89-102, on the attributes of one [img]. *)
Definition embed_img (a : attrs) : attrs :=
  match Attrs.get "src" a with
  | None => a
  | Some src =>
      if negb (Py.truthy src) then a
      else match download_image w src base_path with
           | Some image_data =>
               if Py.truthy image_data then rewrite_img image_data a else a
           | None => a
           end
  end.

(** The loop over [soup.find_all('img')]: every [img] tag of the tree is
    updated in place, each from its own attributes only. *)
Fixpoint embed_node (n : node) : node :=
  match n with
  | Text s => Text s
  | Tag name a children =>
      Tag name (if String.eqb name "img" then embed_img a else a)
        (map embed_node children)
  end.

Definition embed_soup (soup : list node) : list node := map embed_node soup.

(** [embed_images_in_html(self, html_content, base_path=None)] *)
Definition embed_images_in_html `{BeautifulSoup} (html_content : string) : string :=
  soup_str (embed_soup (soup_parse html_content)).

End Embedder.

(** [soup.find_all('img')], as the attributes of the tags found, in document
    order. *)
Fixpoint find_all_img (n : node) : list attrs :=
  match n with
  | Text _ => []
  | Tag name a children =>
      (if String.eqb name "img" then [a] else []) ++ flat_map find_all_img children
  end.

Definition find_all_img_soup (soup : list node) : list attrs :=
  flat_map find_all_img soup.

(** ** Markdown *)

(** [markdown.Markdown(extensions=...).convert(text)] *)
Class Markdown := {
  markdown_convert : list string -> string -> result string;
}.

Definition markdown_extensions : list string :=
  ["markdown.extensions.tables";
   "markdown.extensions.fenced_code";
   "markdown.extensions.codehilite";
   "markdown.extensions.toc"].

(** [markdown_to_html(self, markdown_content)] *)
Definition markdown_to_html `{Markdown} (markdown_content : string) : result string :=
  markdown_convert markdown_extensions markdown_content.

(** ** The document assembler *)

Definition css_styles : string := "
        <style>
            body {
                font-family: -apple-system, BlinkMacSystemFont, 'Segoe UI', Roboto, sans-serif;
                line-height: 1.6;
                color: #333;
                max-width: 100%;
                margin: 0;
                padding: 20px;
            }

            h1, h2, h3, h4, h5, h6 {
                color: #2c3e50;
                margin-top: 2em;
                margin-bottom: 1em;
            }

            h1 { font-size: 2.5em; border-bottom: 2px solid #3498db; padding-bottom: 10px; }
            h2 { font-size: 2em; border-bottom: 1px solid #bdc3c7; padding-bottom: 5px; }
            h3 { font-size: 1.5em; }

            p { margin-bottom: 1em; text-align: justify; }

            img {
                max-width: 100%;
                height: auto;
                display: block;
                margin: 20px auto;
                border-radius: 5px;
                box-shadow: 0 2px 10px rgba(0,0,0,0.1);
            }

            code {
                background-color: #f8f9fa;
                padding: 2px 4px;
                border-radius: 3px;
                font-family: 'Courier New', monospace;
                font-size: 0.9em;
            }

            pre {
                background-color: #f8f9fa;
                padding: 15px;
                border-radius: 5px;
                border-left: 4px solid #3498db;
                overflow-x: auto;
                margin: 1em 0;
            }

            pre code {
                background: none;
                padding: 0;
            }

            table {
                border-collapse: collapse;
                width: 100%;
                margin: 1em 0;
            }

            th, td {
                border: 1px solid #ddd;
                padding: 12px;
                text-align: left;
            }

            th {
                background-color: #f2f2f2;
                font-weight: bold;
            }

            blockquote {
                border-left: 4px solid #3498db;
                margin: 1em 0;
                padding-left: 20px;
                color: #666;
                font-style: italic;
            }

            ul, ol {
                margin: 1em 0;
                padding-left: 2em;
            }

            li {
                margin-bottom: 0.5em;
            }

            a {
                color: #3498db;
                text-decoration: none;
            }

            a:hover {
                text-decoration: underline;
            }
        </style>
        ".

Definition default_title : string := "Converted Document".

(** [create_full_html(self, html_content, title="Converted Document")]; a
    [title] of [None] is the argument left out. *)
Definition create_full_html (html_content : string) (title : option string) : string :=
  let title := default default_title title in
  "
        <!DOCTYPE html>
        <html>
        <head>
            <meta charset=" ++ dquote ++ "UTF-8" ++ dquote ++ ">
            <title>" ++ title ++ "</title>
            " ++ css_styles ++ "
        </head>
        <body>
            " ++ html_content ++ "
        </body>
        </html>
        ".

(** The text after the first occurrence of [pat] in [s]. *)
Fixpoint text_after (pat s : string) : option string :=
  if String.prefix pat s then Some (Py.drop (String.length pat) s)
  else match s with
       | EmptyString => None
       | String _ r => text_after pat r
       end.

(** The text before the first occurrence of [pat] in [s]. *)
Fixpoint text_before (pat s : string) : option string :=
  if String.prefix pat s then Some EmptyString
  else match s with
       | EmptyString => None
       | String c r => String c <$> text_before pat r
       end.

(** The content of the first [title] element of a document. *)
Definition document_title (doc : string) : option string :=
  text_after "<title>" doc ≫= text_before "</title>".

(** ** pathlib (POSIX flavour) *)

Module pathlib.

(** [s[:1] == '/'] *)
Definition starts_slash (s : string) : bool :=
  match s with
  | String a _ => Ascii.eqb a "/"
  | EmptyString => false
  end.

(** The root of a path string and what follows it: two leading slashes are
    a root of their own, three or more are one. *)
Definition splitroot (p : string) : string * string :=
  if negb (starts_slash p) then (EmptyString, p)
  else if negb (starts_slash (Py.drop 1 p)) || starts_slash (Py.drop 2 p)
  then ("/", Py.drop 1 p)
  else ("//", Py.drop 2 p).

(** A component that survives parsing: not empty and not [.]. *)
Definition keeps (x : string) : bool :=
  Py.truthy x && negb (String.eqb x ".").

(** [Path(s)] *)
Definition Path (s : string) : PurePath :=
  let '(r, rel) := splitroot s in
  {| root := r; tail := List.filter keeps (Py.split "/" rel) |}.

(** The path as text, the empty path being the empty text. *)
Definition format (p : PurePath) : string :=
  root p ++ Py.join "/" (tail p).

(** [str(p)] *)
Definition str (p : PurePath) : string :=
  if Py.truthy (format p) then format p else ".".

(** [p.name] *)
Definition name (p : PurePath) : string := List.last (tail p) EmptyString.

(** [p.suffix]: from the last dot of the name, unless that dot is the
    first or the last character. *)
Definition suffix (p : PurePath) : string :=
  match Py.rfind "." (name p) with
  | Some i =>
      if bool_decide (0 < i < String.length (name p) - 1)%nat
      then Py.drop i (name p) else EmptyString
  | None => EmptyString
  end.

(** [p.stem]: the name without its suffix. *)
Definition stem (p : PurePath) : string :=
  match Py.rfind "." (name p) with
  | Some i =>
      if bool_decide (0 < i < String.length (name p) - 1)%nat
      then Py.take i (name p) else name p
  | None => name p
  end.

(** [p.parent] *)
Definition parent (p : PurePath) : PurePath :=
  match tail p with
  | [] => p
  | _ => {| root := root p; tail := removelast (tail p) |}
  end.

(** [p / s] for a [str] [s] *)
Definition joinpath (p : PurePath) (s : string) : PurePath :=
  Path (posixpath.join (format p) s).

(** What parsing leaves as a component: not empty, not [.], no slash. *)
Definition component (x : string) : bool :=
  keeps x && negb (Py.has_char "/" x).

(** The paths that parsing yields. *)
Definition well_formed (p : PurePath) : Prop :=
  root p ∈ [EmptyString; "/"; "//"] /\ Forall (fun x => component x = true) (tail p).

End pathlib.

(** [os.fspath] of a path argument. *)
Definition fspath (p : pathlike) : string :=
  match p with
  | PStr s => s
  | PPath q => pathlib.str q
  end.

(** Truthiness of an optional path argument: [None] and the empty [str] are
    falsy, a [Path] object never is. *)
Definition truthy_path (o : option pathlike) : bool :=
  match o with
  | None => false
  | Some (PStr s) => Py.truthy s
  | Some (PPath _) => true
  end.

(** ** The converter object *)

Record Converter : Type := {
  wkhtmltopdf_path : option string;
  config : option string;
  pdf_options : gmap string (option string);
  temp_files : list string;
}.

(** The option set of [__init__], lines 24-33. *)
Definition default_pdf_options : gmap string (option string) :=
  list_to_map
    [("page-size", Some "A4");
     ("margin-top", Some "0.75in");
     ("margin-right", Some "0.75in");
     ("margin-bottom", Some "0.75in");
     ("margin-left", Some "0.75in");
     ("encoding", Some "UTF-8");
     ("no-outline", None);
     ("enable-local-file-access", None)].

(** [MarkdownToPDFConverter(wkhtmltopdf_path=None)] *)
Definition new_converter (path : option string) : Converter :=
  {| wkhtmltopdf_path := path;
     config := if Py.truthy_opt path then path else None;
     pdf_options := default_pdf_options;
     temp_files := [] |}.

(** *** The options of the front end ([main.py]) *)

(** The values of the settings widgets. *)
Record Settings : Type := {
  page_size : string;
  margin_top : Z;
  margin_bottom : Z;
  margin_left : Z;
  margin_right : Z;
  image_width : Z;
  image_quality : Z;
}.

(** The values the widgets are created with. *)
Definition initial_settings : Settings :=
  {| page_size := "A4"; margin_top := 1; margin_bottom := 1;
     margin_left := 1; margin_right := 1;
     image_width := 800; image_quality := 85 |}.

(** The settings with other values in the image boxes. *)
Definition with_image_settings (iw iq : Z) (s : Settings) : Settings :=
  {| page_size := page_size s; margin_top := margin_top s;
     margin_bottom := margin_bottom s; margin_left := margin_left s;
     margin_right := margin_right s; image_width := iw; image_quality := iq |}.

(** The decimal numeral of a spin box value (the boxes range over 0..5). *)
Definition spin_text (n : Z) : string :=
  match n with
  | 0 => "0" | 1 => "1" | 2 => "2" | 3 => "3" | 4 => "4" | 5 => "5"
  | _ => "?"
  end.

(** [get_pdf_options(self)] *)
Definition get_pdf_options (s : Settings) : gmap string (option string) :=
  list_to_map
    [("page-size", Some (page_size s));
     ("margin-top", Some (spin_text (margin_top s) ++ "in"));
     ("margin-bottom", Some (spin_text (margin_bottom s) ++ "in"));
     ("margin-left", Some (spin_text (margin_left s) ++ "in"));
     ("margin-right", Some (spin_text (margin_right s) ++ "in"));
     ("encoding", Some "UTF-8");
     ("no-outline", None);
     ("enable-local-file-access", None)].

(** [converter.pdf_options.update(options)], as [ConversionThread.run]
    does before it converts. *)
Definition update_options (options : gmap string (option string)) (c : Converter)
  : Converter :=
  {| wkhtmltopdf_path := wkhtmltopdf_path c;
     config := config c;
     pdf_options := options ∪ pdf_options c;
     temp_files := temp_files c |}.

(** ** Stateful code: the converter object and the world, with exceptions *)

Definition State : Type := Converter * World.

(** A method body: it reads and updates the state and returns or raises. *)
Definition M (A : Type) : Type := State -> result A * State.

Definition ret {A} (a : A) : M A := fun st => (Ok a, st).

Definition raise {A} (e : string) : M A := fun st => (Raise e, st).

Definition bind {A B} (m : M A) (k : A -> M B) : M B :=
  fun st =>
    match m st with
    | (Ok a, st') => k a st'
    | (Raise e, st') => (Raise e, st')
    end.

#[global] Instance M_ret : MRet M := @ret.
#[global] Instance M_bind : MBind M := fun A B k m => bind m k.

(** [try: m except Exception as e: h(e)] *)
Definition try_except {A} (m : M A) (h : string -> M A) : M A :=
  fun st =>
    match m st with
    | (Ok a, st') => (Ok a, st')
    | (Raise e, st') => h e st'
    end.

(** [try: m finally: f]: [f] runs on both exits; if [f] raises, its
    exception replaces the outcome of [m]. *)
Definition try_finally {A} (m : M A) (f : M unit) : M A :=
  fun st =>
    let '(r, st') := m st in
    match f st' with
    | (Ok _, st'') => (r, st'')
    | (Raise e, st'') => (Raise e, st'')
    end.

Definition get_world : M World := fun st => (Ok (snd st), st).
Definition get_self : M Converter := fun st => (Ok (fst st), st).
Definition lift {A} (r : result A) : M A := fun st => (r, st).

(** The world with [p] naming [n]. *)
Definition set_fs (p : string) (n : option fsnode) (w : World) : World :=
  {| fs := fun q => if String.eqb q p then n else fs w q;
     http_get := http_get w;
     temp_names := temp_names w;
     write_raises := write_raises w;
     unlink_raises := unlink_raises w;
     wkhtmltopdf := wkhtmltopdf w;
     render_log := render_log w |}.

Definition set_temp_names (l : list (option string)) (w : World) : World :=
  {| fs := fs w;
     http_get := http_get w;
     temp_names := l;
     write_raises := write_raises w;
     unlink_raises := unlink_raises w;
     wkhtmltopdf := wkhtmltopdf w;
     render_log := render_log w |}.

Definition log_render (c : render_call) (w : World) : World :=
  {| fs := fs w;
     http_get := http_get w;
     temp_names := temp_names w;
     write_raises := write_raises w;
     unlink_raises := unlink_raises w;
     wkhtmltopdf := wkhtmltopdf w;
     render_log := c :: render_log w |}.

Definition set_temp_files (l : list string) (c : Converter) : Converter :=
  {| wkhtmltopdf_path := wkhtmltopdf_path c;
     config := config c;
     pdf_options := pdf_options c;
     temp_files := l |}.

Definition modify_world (f : World -> World) : M unit :=
  fun st => (Ok tt, (fst st, f (snd st))).

Definition modify_self (f : Converter -> Converter) : M unit :=
  fun st => (Ok tt, (f (fst st), snd st)).

(** *** File and process primitives *)

(** [open(p, 'r', encoding='utf-8')] followed by [read()] *)
Definition read_text (p : string) : M string :=
  w ← get_world; lift (read_bytes w p).

(** [tempfile.NamedTemporaryFile(mode='w', suffix=sfx, delete=False, ...)]:
    a new, empty file, which stays when it is closed. *)
Definition NamedTemporaryFile (sfx : string) : M string :=
  w ← get_world;
  match temp_names w with
  | Some n :: rest =>
      modify_world (fun w => set_fs (n ++ sfx) (Some (RegularFile EmptyString))
                               (set_temp_names rest w));;
      ret (n ++ sfx)
  | None :: rest =>
      modify_world (set_temp_names rest);;
      raise "No usable temporary directory"
  | [] => raise "No usable temporary directory"
  end.

(** [f.write(text)] on the file at [p] *)
Definition write_text (p : string) (text : string) : M unit :=
  w ← get_world;
  if write_raises w p text then raise "write failed"
  else modify_world (set_fs p (Some (RegularFile text))).

(** [os.unlink(p)] *)
Definition unlink (p : string) : M unit :=
  w ← get_world;
  if unlink_raises w p then raise "unlink failed"
  else modify_world (set_fs p None).

(** [pdfkit.from_file(input, output_path, options=..., configuration=...)]:
    wkhtmltopdf is run on the input file and its output is written to
    [output_path]. *)
Definition pdfkit_from_file (input : string) (output_path : pathlike)
    (options : gmap string (option string)) (configuration : option string)
  : M unit :=
  html ← read_text input;
  modify_world (log_render {| rc_input := input; rc_html := html;
                              rc_output := output_path;
                              rc_options := options;
                              rc_configuration := configuration |});;
  w ← get_world;
  pdf ← lift (wkhtmltopdf w html options configuration);
  modify_world (set_fs (fspath output_path) (Some (RegularFile pdf))).

(** *** The methods *)

(** [read_markdown_file(self, file_path)] *)
Definition read_markdown_file (file_path : string) : M string :=
  try_except (read_text file_path)
    (fun e => raise ("Error reading markdown file: " ++ e)).

(** One round of the loop of [cleanup], lines 268-272. *)
Definition cleanup_one (temp_file : string) : M unit :=
  try_except
    (w ← get_world;
     if path_exists w temp_file then unlink temp_file else ret tt)
    (fun _ => ret tt).

(** The loop of [cleanup]. *)
Fixpoint cleanup_loop (l : list string) : M unit :=
  match l with
  | [] => ret tt
  | temp_file :: rest => cleanup_one temp_file;; cleanup_loop rest
  end.

(** [cleanup(self)] *)
Definition cleanup : M unit :=
  self ← get_self;
  cleanup_loop (temp_files self);;
  modify_self (set_temp_files []).

(** *** What [cleanup] does to the world *)

(** One round of the loop: the file goes when it is there and [os.unlink]
    does not raise. *)
Definition cleanup_one_world (w : World) (temp_file : string) : World :=
  if path_exists w temp_file && negb (unlink_raises w temp_file)
  then set_fs temp_file None w
  else w.

Definition cleanup_world (l : list string) (w : World) : World :=
  foldl cleanup_one_world w l.
Arguments cleanup_world : simpl never.

Section Pipeline.
Context `{Pillow} `{BeautifulSoup} `{Markdown}.

(** The name given to the output when none is asked for, lines 246-247. *)
Definition default_output (markdown_file_path : string) : PurePath :=
  let md_path := pathlib.Path markdown_file_path in
  pathlib.joinpath (pathlib.parent md_path) (pathlib.stem md_path ++ ".pdf").

(** The title given to the document when none is asked for, line 241. *)
Definition default_document_title (markdown_file_path : string) : string :=
  pathlib.stem (pathlib.Path markdown_file_path).

(** Lines 240-241 and 245-247: the title and the output path a run works
    with. *)
Definition effective_title (markdown_file_path : string) (title : option string)
  : string :=
  if negb (Py.truthy_opt title)
  then default_document_title markdown_file_path
  else default EmptyString title.

Definition effective_output (markdown_file_path : string)
    (output_pdf_path : option pathlike) : pathlike :=
  if negb (truthy_path output_pdf_path)
  then PPath (default_output markdown_file_path)
  else default (PStr EmptyString) output_pdf_path.

(** The [with] block, lines 249-253: the file is closed on both exits and,
    created with [delete=False], stays. *)
Definition write_temp_html (full_html : string) : M string :=
  temp_html_path ← NamedTemporaryFile ".html";
  write_text temp_html_path full_html;;
  self ← get_self;
  modify_self (set_temp_files (temp_files self ++ [temp_html_path]));;
  ret temp_html_path.

(** The body of the [try] block of [convert_to_pdf], lines 236-258. *)
Definition convert_to_pdf_body (markdown_file_path : string)
    (output_pdf_path : option pathlike) (title : option string) : M pathlike :=
  markdown_content ← read_markdown_file markdown_file_path;
  html_content ← lift (markdown_to_html markdown_content);
  w ← get_world;
  let html_with_images :=
    embed_images_in_html w (Some markdown_file_path) html_content in
  let title := effective_title markdown_file_path title in
  let full_html := create_full_html html_with_images (Some title) in
  let output_pdf_path := effective_output markdown_file_path output_pdf_path in
  temp_html_path ← write_temp_html full_html;
  self ← get_self;
  pdfkit_from_file temp_html_path output_pdf_path (pdf_options self) (config self);;
  ret output_pdf_path.

(** [convert_to_pdf(self, markdown_file_path, output_pdf_path=None,
    title=None)] *)
Definition convert_to_pdf (markdown_file_path : string)
    (output_pdf_path : option pathlike) (title : option string) : M pathlike :=
  try_finally
    (try_except
       (convert_to_pdf_body markdown_file_path output_pdf_path title)
       (fun e => raise ("Error converting to PDF: " ++ e)))
    cleanup.

End Pipeline.

(** ** A small instance of the interfaces

    Enough of Pillow, BeautifulSoup and Markdown to run the pipeline on
    concrete inputs.  An image is its two dimensions, each a 16-bit number;
    its encoding is these four bytes. *)

Module Toy.

Record image : Type := { w_hi : ascii; w_lo : ascii; h_hi : ascii; h_lo : ascii }.

Definition dim (hi lo : ascii) : Z :=
  256 * Z.of_N (N_of_ascii hi) + Z.of_N (N_of_ascii lo).

Definition hi_byte (n : Z) : ascii := ascii_of_N (Z.to_N (n / 256)).
Definition lo_byte (n : Z) : ascii := ascii_of_N (Z.to_N (n mod 256)).

Definition encode (i : image) : bytes :=
  String (w_hi i) (String (w_lo i) (String (h_hi i) (String (h_lo i) EmptyString))).

Definition decode (data : bytes) : option image :=
  match data with
  | String a (String b (String c (String d EmptyString))) =>
      Some {| w_hi := a; w_lo := b; h_hi := c; h_lo := d |}
  | _ => None
  end.

Definition resize (i : image) (size : Z * Z) : option image :=
  let '(w, h) := size in
  if (0 <? w) && (w <? 65536) && (0 <? h) && (h <? 65536)
  then Some {| w_hi := hi_byte w; w_lo := lo_byte w;
               h_hi := hi_byte h; h_lo := lo_byte h |}
  else None.

#[global] Instance pillow : Pillow := {|
  Image := image;
  Image_open := decode;
  Image_format := fun _ => Some "JPEG";
  Image_mode := fun _ => "RGB";
  Image_width := fun i => dim (w_hi i) (w_lo i);
  Image_height := fun i => dim (h_hi i) (h_lo i);
  Image_convert := fun i _ => Some i;
  Image_resize_lanczos := resize;
  Image_save := fun i fmt _ _ => if String.eqb fmt "JPEG" then Some (encode i) else None;
|}.

(** An image of the given size, and its bytes. *)
Definition make_image (w h : Z) : image :=
  {| w_hi := hi_byte w; w_lo := lo_byte w; h_hi := hi_byte h; h_lo := lo_byte h |}.

Definition image_bytes (w h : Z) : bytes := encode (make_image w h).

(** A document is a run of [img] tags, one per line of the text, each line
    the [src] of its tag. *)
Definition parse_lines (html : string) : list node :=
  map (fun l => Tag "img" [("src", l)] []) (Py.split "010" html).

Definition node_src (n : node) : string :=
  match n with
  | Tag _ a _ => default EmptyString (Attrs.get "src" a)
  | Text s => s
  end.

#[global] Instance soup : BeautifulSoup := {|
  soup_parse := parse_lines;
  soup_str := fun l => Py.join (String "010" EmptyString) (map node_src l);
|}.

#[global] Instance md : Markdown := {|
  markdown_convert := fun _ text => Ok text;
|}.

(** A world with a markdown file [doc/report.md] whose one line names the
    image [pic.jpg], a file of 1000 by 2 pixels beside it. *)
Definition world : World := {|
  fs := fun p =>
    if String.eqb p "doc/report.md" then Some (RegularFile "pic.jpg")
    else if String.eqb p "doc/pic.jpg" then Some (RegularFile (image_bytes 1000 2))
    else if String.eqb p "doc" || String.eqb p "doc/." then Some Directory
    else None;
  http_get := fun _ _ _ => TransportError "Connection refused";
  temp_names := [Some "/tmp/tmp0001"];
  write_raises := fun _ _ => false;
  unlink_raises := fun _ => false;
  wkhtmltopdf := fun _ _ _ => Ok "%PDF";
  render_log := [];
|}.

End Toy.

(** *** More worlds and documents *)

(** A world with one image beside the document and one server. *)
Definition resolver_world : World := {|
  fs := fun p =>
    if String.eqb p "doc/pic.jpg" then Some (RegularFile "JFIF") else None;
  http_get := fun url _ _ =>
    if String.eqb url "http://example.org/a.png" then Response 200 "PNG"
    else if String.eqb url "http://example.org/gone.png" then Response 404 "Not Found"
    else TransportError "Connection refused";
  temp_names := [];
  write_raises := fun _ _ => false;
  unlink_raises := fun _ => false;
  wkhtmltopdf := fun _ _ _ => Raise "No wkhtmltopdf executable found";
  render_log := [];
|}.

(** A document of two images, the first missing, the second beside the
    source document. *)
Definition two_images : list node :=
  [Tag "p" [] [Tag "img" [("src", "missing.png"); ("alt", "a")] []];
   Tag "img" [("src", "pic.jpg")] []].

(** The small world, but where writing a file raises: the text cannot be
    encoded (a title with a lone surrogate) or the disk is full. *)
Definition world_write_raises : World := {|
  fs := fs Toy.world;
  http_get := http_get Toy.world;
  temp_names := temp_names Toy.world;
  write_raises := fun _ _ => true;
  unlink_raises := unlink_raises Toy.world;
  wkhtmltopdf := wkhtmltopdf Toy.world;
  render_log := render_log Toy.world;
|}.

(** ** More of the code *)

(** *** pathlib: [with_suffix] *)

(** [p.with_suffix(suffix)]: the name with its suffix replaced, or with
    [suffix] added when it has none.  A suffix with a slash, one that does
    not begin with a dot, a lone dot, and a path without a name raise
    [ValueError]. *)
Definition with_suffix (p : PurePath) (suffix : string) : result PurePath :=
  if Py.has_char "/" suffix then Raise "Invalid suffix"
  else if (Py.truthy suffix && negb (Py.startswith suffix ".")) || String.eqb suffix "."
  then Raise "Invalid suffix"
  else if negb (Py.truthy (pathlib.name p)) then Raise "path has an empty name"
  else
    let old_suffix := pathlib.suffix p in
    let name :=
      if negb (Py.truthy old_suffix) then pathlib.name p ++ suffix
      else Py.take (String.length (pathlib.name p) - String.length old_suffix)
             (pathlib.name p) ++ suffix in
    Ok {| root := root p; tail := removelast (tail p) ++ [name] |}.

(** [main.py], line 351: the output name the front end proposes for a chosen
    markdown file, [str(Path(file_path).with_suffix('.pdf'))]. *)
Definition proposed_output (file_path : string) : result string :=
  match with_suffix (pathlib.Path file_path) ".pdf" with
  | Ok p => Ok (pathlib.str p)
  | Raise e => Raise e
  end.

(** *** The work of [ConversionThread.run] *)

(** [main.py], lines 36 and 47-51: the options of the front end are merged
    into the converter's, then the conversion runs.  The signals emitted
    around these calls are left out. *)
Definition thread_convert (options : gmap string (option string))
    `{Pillow} `{BeautifulSoup} `{Markdown}
    (input_file output_file title : string) : M pathlike :=
  modify_self (update_options options);;
  convert_to_pdf input_file (Some (PStr output_file)) (Some title).

(** *** Pillow: modes *)


(** *** The shape of a document *)

(** The tree with the attributes of its [img] tags erased. *)
Fixpoint erase_img_attrs (n : node) : node :=
  match n with
  | Text s => Text s
  | Tag name a children =>
      Tag name (if String.eqb name "img" then [] else a)
        (map erase_img_attrs children)
  end.



(** *** The sign of a float *)

(** Not a negative number. *)
Definition float_nonneg (x : spec_float) : Prop :=
  match x with
  | S754_finite true _ _ => False
  | _ => True
  end.

(** *** Worlds for the examples *)

(** A converter with two files registered, and a world where both are
    there, the second of which cannot be removed. *)
Definition converter_two_temps : Converter :=
  set_temp_files ["/tmp/a.html"; "/tmp/b.html"] (new_converter None).

Definition world_two_temps : World := {|
  fs := fun p =>
    if String.eqb p "/tmp/a.html" || String.eqb p "/tmp/b.html"
       || String.eqb p "/tmp/c.html"
    then Some (RegularFile "<html>") else None;
  http_get := fun _ _ _ => TransportError "Connection refused";
  temp_names := [];
  write_raises := fun _ _ => false;
  unlink_raises := fun p => String.eqb p "/tmp/b.html";
  wkhtmltopdf := fun _ _ _ => Raise "No wkhtmltopdf executable found";
  render_log := [];
|}.

(** The small world, but where wkhtmltopdf fails. *)
Definition world_render_fails : World := {|
  fs := fs Toy.world;
  http_get := http_get Toy.world;
  temp_names := temp_names Toy.world;
  write_raises := write_raises Toy.world;
  unlink_raises := unlink_raises Toy.world;
  wkhtmltopdf := fun _ _ _ => Raise "wkhtmltopdf reported an error";
  render_log := render_log Toy.world;
|}.

(** A world where the image beside the document is an empty file. *)
Definition world_empty_image : World := {|
  fs := fun p =>
    if String.eqb p "doc/pic.jpg" then Some (RegularFile EmptyString) else None;
  http_get := fun _ _ _ => TransportError "Connection refused";
  temp_names := [];
  write_raises := fun _ _ => false;
  unlink_raises := fun _ => false;
  wkhtmltopdf := fun _ _ _ => Raise "No wkhtmltopdf executable found";
  render_log := [];
|}.

(** * Properties *)

(** ** The small instance is lawful *)

Lemma toy_dim_bytes (n : Z) :
  0 <= n < 65536 -> Toy.dim (Toy.hi_byte n) (Toy.lo_byte n) = n.
Proof.
  intros Hn. unfold Toy.dim, Toy.hi_byte, Toy.lo_byte.
  rewrite !N_ascii_embedding.
  - rewrite !Z2N.id.
    + symmetry. apply Z.div_mod. lia.
    + apply Z.mod_pos_bound. lia.
    + apply Z.div_pos; lia.
  - change 256%N with (Z.to_N 256). apply Z2N.inj_lt.
    + apply Z.mod_pos_bound; lia.
    + lia.
    + apply Z.mod_pos_bound. lia.
  - change 256%N with (Z.to_N 256). apply Z2N.inj_lt.
    + apply Z.div_pos; lia.
    + lia.
    + apply Z.div_lt_upper_bound; lia.
Qed.

#[global] Instance toy_pillow_laws : @PillowLaws Toy.pillow.
Proof.
  split.
  - intros img m img' [= <-]. done.
  - intros img w h img'. cbn. unfold Toy.resize.
    destruct ((0 <? w) && (w <? 65536) && (0 <? h) && (h <? 65536)) eqn:E;
      [|done].
    intros [= <-]. cbn.
    repeat (apply andb_prop in E as [E ?]).
    split; apply toy_dim_bytes; lia.
  - intros [a b c d] fmt q o data. cbn.
    destruct (String.eqb_spec fmt "JPEG") as [->|]; [|done].
    intros [= <-]. eexists. split; [reflexivity|]. done.
Qed.

(** ** The transcoder *)

Section TranscoderFacts.
Context `{PillowLaws}.

Lemma optimize_image_transcoded data mw q out :
  transcode data mw q = Some out -> optimize_image data mw q = out.
Proof. unfold optimize_image. by intros ->. Qed.

Lemma optimize_image_not_transcoded data mw q :
  transcode data mw q = None -> optimize_image data mw q = data.
Proof. unfold optimize_image. by intros ->. Qed.

Lemma normalize_mode_size img img' :
  normalize_mode img = Some img' ->
  Image_width img' = Image_width img /\ Image_height img' = Image_height img.
Proof.
  unfold normalize_mode. case_bool_decide.
  - apply convert_size.
  - by intros [= <-].
Qed.

Lemma downscale_within img mw img' :
  Image_width img <= mw -> downscale img mw = Some img' -> img' = img.
Proof.
  unfold downscale. intros Hle.
  destruct (Z.ltb_spec mw (Image_width img)); [lia|]. by intros [= <-].
Qed.

Lemma downscale_beyond img mw img' :
  mw < Image_width img -> downscale img mw = Some img' ->
  Image_width img' = mw /\
  new_height (Image_height img) mw (Image_width img) = Some (Image_height img').
Proof.
  unfold downscale. intros Hlt.
  destruct (Z.ltb_spec mw (Image_width img)); [|lia].
  destruct (new_height _ _ _) as [h|]; [|done]. cbn.
  intros [-> ->]%resize_size. done.
Qed.

(** The steps of a successful transcoding. *)
Lemma transcode_Some data mw q out :
  transcode data mw q = Some out ->
  exists img img1 img2,
    Image_open data = Some img /\ normalize_mode img = Some img1 /\
    downscale img1 mw = Some img2 /\ Image_save img2 "JPEG" q true = Some out.
Proof.
  unfold transcode. intros Ht.
  destruct (Image_open data) as [img|] eqn:E0; [|done]. cbn in Ht.
  destruct (normalize_mode img) as [img1|] eqn:E1; [|done]. cbn in Ht.
  destruct (downscale img1 mw) as [img2|] eqn:E2; [|done]. cbn in Ht.
  exists img, img1, img2. auto.
Qed.

End TranscoderFacts.

(** C1 (as amended).  An image decoded from [image_data] that is no wider
    than [max_width] keeps its dimensions.  One that is wider either could
    not be transcoded, and the input comes back as it is, or comes out
    [max_width] wide and [int(height * (max_width / width))] high: the
    floating-point product truncated, not rounded. *)
Theorem optimize_image_dimensions {P : Pillow} {L : PillowLaws}
    (image_data : bytes) (img : Image) (max_width quality : Z) :
  Image_open image_data = Some img ->
  (Image_width img <= max_width ->
     exists img',
       Image_open (optimize_image image_data max_width quality) = Some img' /\
       Image_width img' = Image_width img /\
       Image_height img' = Image_height img) /\
  (max_width < Image_width img ->
     (transcode image_data max_width quality = None /\
      optimize_image image_data max_width quality = image_data) \/
     (exists img',
       Image_open (optimize_image image_data max_width quality) = Some img' /\
       Image_width img' = max_width /\
       new_height (Image_height img) max_width (Image_width img)
         = Some (Image_height img'))).
Proof.
  intros Hopen. split.
  - intros Hle.
    destruct (transcode image_data max_width quality) as [out|] eqn:Ht.
    + rewrite (optimize_image_transcoded _ _ _ _ Ht).
      apply transcode_Some in Ht as (i0 & i1 & i2 & Ha & H1 & H2 & H3).
      assert (i0 = img) as -> by congruence.
      apply normalize_mode_size in H1 as [Hw Hh].
      apply downscale_within in H2 as ->; [|lia].
      apply save_open in H3 as (img' & ? & _ & ? & ?).
      exists img'. repeat split; congruence.
    + rewrite (optimize_image_not_transcoded _ _ _ Ht). by exists img.
  - intros Hlt.
    destruct (transcode image_data max_width quality) as [out|] eqn:Ht.
    + right. rewrite (optimize_image_transcoded _ _ _ _ Ht).
      apply transcode_Some in Ht as (i0 & i1 & i2 & Ha & H1 & H2 & H3).
      assert (i0 = img) as -> by congruence.
      apply normalize_mode_size in H1 as [Hw Hh].
      apply downscale_beyond in H2 as [Hw2 Hh2]; [|lia].
      apply save_open in H3 as (img' & ? & _ & Hw3 & Hh3).
      exists img'. rewrite Hw3, Hh3, <- Hw, <- Hh. done.
    + left. split; [done|]. by apply optimize_image_not_transcoded.
Qed.

(** The theorem at an image of 1000 by 600 pixels and at one of 500 by 300,
    with a maximal width of 800. *)
Lemma optimize_image_dimensions_witness :
  (exists img',
     Image_open (optimize_image (Toy.image_bytes 500 300) 800 85) = Some img' /\
     Image_width img' = 500 /\ Image_height img' = 300) /\
  (exists img',
     Image_open (optimize_image (Toy.image_bytes 1000 600) 800 85) = Some img' /\
     Image_width img' = 800 /\ Image_height img' = 480).
Proof.
  split.
  - destruct (@optimize_image_dimensions Toy.pillow toy_pillow_laws
                (Toy.image_bytes 500 300) (Toy.make_image 500 300)
                800 85 eq_refl) as [Hsmall _].
    apply Hsmall. vm_compute. discriminate.
  - destruct (@optimize_image_dimensions Toy.pillow toy_pillow_laws
                (Toy.image_bytes 1000 600) (Toy.make_image 1000 600)
                800 85 eq_refl) as [_ Hbig].
    destruct Hbig as [[Hnone _]|(img' & Ho & Hw & Hh)].
    + vm_compute. reflexivity.
    + vm_compute in Hnone. discriminate.
    + exists img'. split; [exact Ho|]. split; [exact Hw|].
      assert (new_height 600 800 1000 = Some 480) as E by (vm_compute; reflexivity).
      change (new_height 600 800 1000 = Some (Image_height img')) in Hh.
      congruence.
Defined.

(** C1 (as stated) fails: an image of 1000 by 2 pixels comes out 1 pixel
    high at a maximal width of 800, where the nearest integer to
    [2 * 800 / 1000 = 1.6] is 2. *)
Lemma optimize_image_height_not_rounded :
  exists img img',
    Image_open (Toy.image_bytes 1000 2) = Some img /\
    Image_width img = 1000 /\ Image_height img = 2 /\
    Image_open (optimize_image (Toy.image_bytes 1000 2) default_max_width default_quality)
      = Some img' /\
    Image_width img' = 800 /\ Image_height img' = 1 /\
    new_height 2 800 1000 = Some 1 /\
    claimed_height 2 800 1000 = 2 /\
    Image_height img' <> claimed_height (Image_height img) 800 (Image_width img).
Proof.
  eexists _, _. repeat (split; [vm_compute; reflexivity|]).
  vm_compute. discriminate.
Qed.

(** C5.  Whichever step of the transcoding raises (decoding, mode
    normalisation, resizing or encoding), [optimize_image] returns its input
    as it is; when no step raises, its output is what the JPEG encoder
    produced, and decodes as a JPEG. *)
Theorem optimize_image_fallback_or_jpeg {P : Pillow} {L : PillowLaws}
    (image_data : bytes) (max_width quality : Z) :
  (Image_open image_data = None ->
     optimize_image image_data max_width quality = image_data) /\
  (forall img,
     Image_open image_data = Some img -> normalize_mode img = None ->
     optimize_image image_data max_width quality = image_data) /\
  (forall img img1,
     Image_open image_data = Some img -> normalize_mode img = Some img1 ->
     downscale img1 max_width = None ->
     optimize_image image_data max_width quality = image_data) /\
  (forall img img1 img2,
     Image_open image_data = Some img -> normalize_mode img = Some img1 ->
     downscale img1 max_width = Some img2 ->
     Image_save img2 "JPEG" quality true = None ->
     optimize_image image_data max_width quality = image_data) /\
  (forall img img1 img2 out,
     Image_open image_data = Some img -> normalize_mode img = Some img1 ->
     downscale img1 max_width = Some img2 ->
     Image_save img2 "JPEG" quality true = Some out ->
     optimize_image image_data max_width quality = out /\
     exists img', Image_open out = Some img' /\ Image_format img' = Some "JPEG").
Proof.
  unfold optimize_image, transcode.
  split; [|split; [|split; [|split]]].
  - by intros ->.
  - intros img -> E1. cbn. by rewrite E1.
  - intros img img1 -> E1 E2. cbn. rewrite E1. cbn. by rewrite E2.
  - intros img img1 img2 -> E1 E2 E3. cbn. rewrite E1. cbn. rewrite E2. cbn.
    by rewrite E3.
  - intros img img1 img2 out -> E1 E2 E3. cbn. rewrite E1. cbn. rewrite E2.
    cbn. rewrite E3. split; [done|].
    apply save_open in E3 as (img' & ? & ? & _). by exists img'.
Qed.

(** The theorem at bytes that do not decode and at the bytes of an image of
    500 by 300 pixels. *)
Lemma optimize_image_fallback_or_jpeg_witness :
  optimize_image "not an image" 800 85 = "not an image" /\
  exists img',
    Image_open (optimize_image (Toy.image_bytes 500 300) 800 85) = Some img' /\
    Image_format img' = Some "JPEG".
Proof.
  split.
  - apply (@optimize_image_fallback_or_jpeg Toy.pillow toy_pillow_laws
             "not an image" 800 85).
    reflexivity.
  - destruct (@optimize_image_fallback_or_jpeg Toy.pillow toy_pillow_laws
                (Toy.image_bytes 500 300) 800 85) as (_ & _ & _ & _ & Hok).
    destruct (Hok (Toy.make_image 500 300) (Toy.make_image 500 300)
                (Toy.make_image 500 300) (Toy.image_bytes 500 300)
                eq_refl eq_refl eq_refl eq_refl) as [-> Hjpeg].
    exact Hjpeg.
Defined.

(** ** The image resolver *)

(** C4 (as amended).  [download_image] always returns, and:
    - for a reference with a network scheme, a transport error and a
      response with an error status (400 to 599) give [None], any other
      response gives its content;
    - for any other reference, the path looked at is the reference joined to
      the directory of the source document when the reference is relative
      and a source document is given; a readable regular file there gives
      its bytes; a directory, an unreadable file and a missing path give
      [None]. *)
Theorem download_image_outcomes (w : World) (url : string) (base_path : option string) :
  (is_remote url = true ->
     (forall e, http_get w url user_agent_headers 30 = TransportError e ->
        download_image w url base_path = None) /\
     (forall status_code content,
        http_get w url user_agent_headers 30 = Response status_code content ->
        (400 <= status_code < 600 -> download_image w url base_path = None) /\
        (~ 400 <= status_code < 600 ->
           download_image w url base_path = Some content))) /\
  (is_remote url = false ->
     (forall base, base_path = Some base -> Py.truthy base = true ->
        posixpath.isabs url = false ->
        local_path url base_path = posixpath.join (posixpath.dirname base) url) /\
     (forall data, fs w (local_path url base_path) = Some (RegularFile data) ->
        download_image w url base_path = Some data) /\
     (fs w (local_path url base_path) = Some Directory ->
        download_image w url base_path = None) /\
     (fs w (local_path url base_path) = Some Unreadable ->
        download_image w url base_path = None) /\
     (path_exists w (local_path url base_path) = false ->
        download_image w url base_path = None)).
Proof.
  unfold download_image, download_image_body. split.
  - intros ->. cbn [negb]. split.
    + by intros e ->.
    + intros status_code content ->. unfold raise_for_status. split.
      * intros [? ?].
        destruct (Z.leb_spec 400 status_code); [|lia].
        destruct (Z.ltb_spec status_code 600); [|lia]. done.
      * intros Hn.
        destruct (Z.leb_spec 400 status_code); [|done].
        destruct (Z.ltb_spec status_code 600); [lia|done].
  - intros ->. cbn [negb]. unfold path_exists, read_bytes.
    split; [|split; [|split; [|split]]].
    + intros base -> Hb Ha. unfold local_path. by rewrite Hb, Ha.
    + by intros data ->.
    + by intros ->.
    + by intros ->.
    + destruct (fs w (local_path url base_path)); done.
Qed.

Lemma download_image_outcomes_witness :
  download_image resolver_world "http://example.org/a.png" (Some "doc/report.md")
    = Some "PNG" /\
  download_image resolver_world "http://example.org/gone.png" (Some "doc/report.md")
    = None /\
  download_image resolver_world "https://example.org/b.png" (Some "doc/report.md")
    = None /\
  local_path "pic.jpg" (Some "doc/report.md") = "doc/pic.jpg" /\
  download_image resolver_world "pic.jpg" (Some "doc/report.md") = Some "JFIF" /\
  download_image resolver_world "missing.jpg" (Some "doc/report.md") = None.
Proof.
  pose proof (download_image_outcomes resolver_world) as T.
  split; [|split; [|split; [|split; [|split]]]].
  - destruct (T "http://example.org/a.png" (Some "doc/report.md")) as [R _].
    destruct (R eq_refl) as [_ R2].
    destruct (R2 200 "PNG" eq_refl) as [_ R3]. apply R3. lia.
  - destruct (T "http://example.org/gone.png" (Some "doc/report.md")) as [R _].
    destruct (R eq_refl) as [_ R2].
    destruct (R2 404 "Not Found" eq_refl) as [R3 _]. apply R3. lia.
  - destruct (T "https://example.org/b.png" (Some "doc/report.md")) as [R _].
    destruct (R eq_refl) as [R1 _].
    apply (R1 "Connection refused"). reflexivity.
  - destruct (T "pic.jpg" (Some "doc/report.md")) as [_ R].
    destruct (R eq_refl) as (R1 & _).
    rewrite (R1 "doc/report.md" eq_refl eq_refl eq_refl). reflexivity.
  - destruct (T "pic.jpg" (Some "doc/report.md")) as [_ R].
    destruct (R eq_refl) as (_ & R2 & _). apply R2. reflexivity.
  - destruct (T "missing.jpg" (Some "doc/report.md")) as [_ R].
    destruct (R eq_refl) as (_ & _ & _ & _ & R5). apply R5. reflexivity.
Defined.

(** C4 (as stated) fails: beside [doc/report.md] the reference [.] is not
    network-schemed, resolves to [doc/.], which exists, and yet no bytes
    come back: the path is a directory, opening it raises, and the
    exception becomes [None]. *)
Lemma download_image_existing_path_without_bytes :
  is_remote "." = false /\
  local_path "." (Some "doc/report.md") = "doc/." /\
  path_exists Toy.world "doc/." = true /\
  download_image_body Toy.world "." (Some "doc/report.md") = Raise "Is a directory" /\
  download_image Toy.world "." (Some "doc/report.md") = None.
Proof. repeat split; vm_compute; reflexivity. Qed.

(** ** The image embedder *)

Lemma attrs_get_set_eq (k v : string) (a : list (string * string)) :
  Attrs.get k (Attrs.set k v a) = Some v.
Proof.
  induction a as [|[k' v'] a IH]; cbn.
  - by rewrite String.eqb_refl.
  - destruct (String.eqb_spec k' k) as [->|Hne]; cbn.
    + by rewrite String.eqb_refl.
    + by destruct (String.eqb_spec k' k).
Qed.

Lemma attrs_get_set_ne (k k' v : string) (a : list (string * string)) :
  k <> k' -> Attrs.get k' (Attrs.set k v a) = Attrs.get k' a.
Proof.
  intros Hne. induction a as [|[k0 v0] a IH]; cbn.
  - by destruct (String.eqb_spec k k').
  - destruct (String.eqb_spec k0 k) as [->|Hne0]; cbn.
    + destruct (String.eqb_spec k k'); [done|]. done.
    + by rewrite IH.
Qed.

(** Induction on a tree, with the hypothesis for every child. *)
Lemma node_forall_ind (Q : node -> Prop) :
  (forall s, Q (Text s)) ->
  (forall name a children, Forall Q children -> Q (Tag name a children)) ->
  forall n, Q n.
Proof.
  intros HT HG. fix IH 1. intros [s|name a children].
  - apply HT.
  - apply HG. induction children as [|c cs IHcs]; constructor.
    + apply IH.
    + apply IHcs.
Qed.

Section EmbedderFacts.
Context {P : Pillow}.
Variable w : World.
Variable base_path : option string.

Lemma find_all_img_embed_node (n : node) :
  find_all_img (embed_node w base_path n)
  = map (embed_img w base_path) (find_all_img n).
Proof.
  induction n as [s|name a children IH] using node_forall_ind; [done|].
  cbn [embed_node find_all_img]. rewrite map_app. f_equal.
  - by destruct (String.eqb name "img").
  - induction IH as [|c cs Hc _ IHcs]; [done|].
    cbn. rewrite map_app. by rewrite Hc, IHcs.
Qed.

Lemma find_all_img_embed_soup (soup : list node) :
  find_all_img_soup (embed_soup w base_path soup)
  = map (embed_img w base_path) (find_all_img_soup soup).
Proof.
  unfold find_all_img_soup, embed_soup.
  induction soup as [|n soup IH]; [done|].
  cbn. rewrite map_app. by rewrite find_all_img_embed_node, IH.
Qed.

Lemma embed_img_unavailable (a : list (string * string)) (src : string) :
  Attrs.get "src" a = Some src ->
  download_image w src base_path = None ->
  embed_img w base_path a = a.
Proof.
  unfold embed_img. intros -> Hd. destruct (Py.truthy src); cbn; [|done].
  by rewrite Hd.
Qed.

Lemma embed_img_available (a : list (string * string)) (src : string) (data : bytes) :
  Attrs.get "src" a = Some src -> Py.truthy src = true ->
  download_image w src base_path = Some data -> Py.truthy data = true ->
  embed_img w base_path a = rewrite_img data a.
Proof.
  unfold embed_img. intros -> Hs Hd Ht. rewrite Hs. cbn. by rewrite Hd, Ht.
Qed.

Lemma rewrite_img_src (data : bytes) (a : list (string * string)) :
  Attrs.get "src" (rewrite_img data a)
  = Some (data_uri_prefix
          ++ base64.b64encode (optimize_image data default_max_width default_quality)).
Proof.
  unfold rewrite_img. rewrite attrs_get_set_ne by done.
  apply attrs_get_set_eq.
Qed.

(** The outcome of one round of the loop: the tag is as it was, or it was
    rewritten from the bytes of its image. *)
Lemma embed_img_cases (a : list (string * string)) :
  embed_img w base_path a = a \/
  exists src data,
    Attrs.get "src" a = Some src /\
    download_image w src base_path = Some data /\
    embed_img w base_path a = rewrite_img data a.
Proof.
  unfold embed_img. destruct (Attrs.get "src" a) as [src|]; [|by left].
  destruct (Py.truthy src); cbn; [|by left].
  destruct (download_image w src base_path) as [data|] eqn:Hd; [|by left].
  destruct (Py.truthy data); [|by left].
  right. by exists src, data.
Qed.

End EmbedderFacts.

Lemma download_image_local_missing (w : World) (url : string) (base_path : option string) :
  is_remote url = false ->
  fs w (local_path url base_path) = None ->
  download_image w url base_path = None.
Proof.
  unfold download_image, download_image_body, path_exists.
  by intros -> ->.
Qed.

Lemma data_uri_not_remote (s : string) : is_remote ("data:" ++ s) = false.
Proof. reflexivity. Qed.

(** C2.  A tag whose image the resolver reports unavailable keeps all its
    attributes, and this does not stop the others: the [img] tags of the
    result are, in document order, those of the input after one round of the
    loop each, and a tag whose image is available has its source rewritten.
    The embedder is a total function: no step of it can raise. *)
Theorem embed_keeps_unavailable_images {P : Pillow}
    (w : World) (base_path : option string) :
  (forall (a : list (string * string)) src,
     Attrs.get "src" a = Some src ->
     download_image w src base_path = None ->
     embed_img w base_path a = a) /\
  (forall soup,
     find_all_img_soup (embed_soup w base_path soup)
     = map (embed_img w base_path) (find_all_img_soup soup)) /\
  (forall (a : list (string * string)) src data,
     Attrs.get "src" a = Some src -> Py.truthy src = true ->
     download_image w src base_path = Some data -> Py.truthy data = true ->
     exists payload,
       Attrs.get "src" (embed_img w base_path a)
       = Some ("data:image/jpeg;base64," ++ payload)).
Proof.
  split; [|split].
  - apply embed_img_unavailable.
  - apply find_all_img_embed_soup.
  - intros a src data Hs Ht Hd Hdt.
    rewrite (embed_img_available _ _ _ _ _ Hs Ht Hd Hdt).
    eexists. apply rewrite_img_src.
Qed.

(** The theorem on a document of two images, the first of them missing. *)
Lemma embed_keeps_unavailable_images_witness :
  embed_img Toy.world (Some "doc/report.md") [("src", "missing.png"); ("alt", "a")]
    = [("src", "missing.png"); ("alt", "a")] /\
  find_all_img_soup (embed_soup Toy.world (Some "doc/report.md") two_images)
    = [[("src", "missing.png"); ("alt", "a")];
       embed_img Toy.world (Some "doc/report.md") [("src", "pic.jpg")]] /\
  exists payload,
    Attrs.get "src" (embed_img Toy.world (Some "doc/report.md") [("src", "pic.jpg")])
    = Some ("data:image/jpeg;base64," ++ payload).
Proof.
  destruct (@embed_keeps_unavailable_images Toy.pillow Toy.world
              (Some "doc/report.md")) as (T1 & T2 & T3).
  split; [|split].
  - apply (T1 _ "missing.png"); reflexivity.
  - rewrite T2. cbn [two_images find_all_img_soup flat_map find_all_img
                     String.eqb Ascii.eqb Bool.eqb app map].
    rewrite (T1 [("src", "missing.png"); ("alt", "a")] "missing.png"
               eq_refl eq_refl).
    reflexivity.
  - apply (T3 _ "pic.jpg" (Toy.image_bytes 1000 2)); reflexivity.
Defined.

(** C10.  One round of the loop either leaves the tag as it is or rewrites
    its source from [optimize_image] at a maximal width of 800 and a
    quality of 85; the embedder takes nothing else, and the options the
    front end hands to the converter do not depend on its image settings. *)
Theorem embed_uses_default_constraints {P : Pillow}
    (w : World) (base_path : option string) (a : list (string * string)) :
  (embed_img w base_path a = a \/
   exists src data,
     Attrs.get "src" a = Some src /\
     download_image w src base_path = Some data /\
     Attrs.get "src" (embed_img w base_path a)
     = Some ("data:image/jpeg;base64,"
             ++ base64.b64encode (optimize_image data 800 85))) /\
  (forall s iw iq,
     get_pdf_options (with_image_settings iw iq s) = get_pdf_options s).
Proof.
  split; [|done].
  destruct (embed_img_cases w base_path a) as [?|(src & data & Hs & Hd & ->)];
    [by left|right].
  exists src, data. split; [done|]. split; [done|]. apply rewrite_img_src.
Qed.

Section Idempotence.
Context {P : Pillow}.
Variable w : World.
Variable base_path : option string.
Hypothesis no_data_files :
  forall s, fs w (local_path ("data:" ++ s) base_path) = None.

Lemma download_image_data_uri (s : string) :
  download_image w ("data:" ++ s) base_path = None.
Proof.
  apply download_image_local_missing; [apply data_uri_not_remote|].
  apply no_data_files.
Qed.

Lemma embed_img_data_uri (a : list (string * string)) (s : string) :
  Attrs.get "src" a = Some ("data:" ++ s) -> embed_img w base_path a = a.
Proof.
  intros Hs. apply (embed_img_unavailable _ _ _ _ Hs).
  apply download_image_data_uri.
Qed.

Lemma embed_img_idempotent (a : list (string * string)) :
  embed_img w base_path (embed_img w base_path a) = embed_img w base_path a.
Proof.
  destruct (embed_img_cases w base_path a) as [E|(src & data & _ & _ & E)].
  - by rewrite E.
  - rewrite E.
    apply (embed_img_data_uri _
             ("image/jpeg;base64,"
              ++ base64.b64encode
                   (optimize_image data default_max_width default_quality))).
    apply rewrite_img_src.
Qed.

Lemma embed_node_idempotent (n : node) :
  embed_node w base_path (embed_node w base_path n) = embed_node w base_path n.
Proof.
  induction n as [s|name a children IH] using node_forall_ind; [done|].
  cbn [embed_node]. f_equal.
  - destruct (String.eqb name "img"); [apply embed_img_idempotent|done].
  - rewrite map_map. induction IH as [|c cs Hc _ IHcs]; [done|].
    cbn. by rewrite Hc, IHcs.
Qed.

End Idempotence.

(** C8.  In a world where no path that begins with [data:] names anything
    beside the source document, a [data:] source is not network-schemed and
    resolves as unavailable, a tag with such a source is left as it is, and
    a second run of the embedder changes nothing of what the first made. *)
Theorem embed_data_uri_noop {P : Pillow} (w : World) (base_path : option string) :
  (forall s, fs w (local_path ("data:" ++ s) base_path) = None) ->
  (forall s,
     is_remote ("data:" ++ s) = false /\
     download_image w ("data:" ++ s) base_path = None) /\
  (forall (a : list (string * string)) s,
     Attrs.get "src" a = Some ("data:" ++ s) ->
     embed_img w base_path a = a) /\
  (forall soup,
     embed_soup w base_path (embed_soup w base_path soup)
     = embed_soup w base_path soup).
Proof.
  intros Hno. split; [|split].
  - intros s. split; [apply data_uri_not_remote|].
    by apply download_image_data_uri.
  - intros a s. by apply embed_img_data_uri.
  - intros soup. unfold embed_soup. rewrite map_map.
    apply map_ext. intros n. by apply embed_node_idempotent.
Qed.

(** The theorem in the small world, on the document of two images. *)
Lemma embed_data_uri_noop_witness :
  embed_img Toy.world (Some "doc/report.md") [("src", "data:image/png;base64,AAAA")]
    = [("src", "data:image/png;base64,AAAA")] /\
  embed_soup Toy.world (Some "doc/report.md")
    (embed_soup Toy.world (Some "doc/report.md") two_images)
  = embed_soup Toy.world (Some "doc/report.md") two_images.
Proof.
  destruct (@embed_data_uri_noop Toy.pillow Toy.world (Some "doc/report.md"))
    as (_ & T2 & T3).
  - intros s. reflexivity.
  - split.
    + apply (T2 _ "image/png;base64,AAAA"). reflexivity.
    + apply T3.
Defined.

(** ** The document assembler *)

(** C9 (as amended).  The fallback title is the default of an argument left
    out: without a title the document is titled [Converted Document], and
    with the empty string as title its title is empty. *)
Theorem create_full_html_title (html_content : string) :
  document_title (create_full_html html_content None) = Some "Converted Document" /\
  document_title (create_full_html html_content (Some "")) = Some "".
Proof. split; vm_compute; reflexivity. Qed.

(** C9 (as stated) fails: with the empty string as title the document's
    title is empty, not the fallback. *)
Lemma create_full_html_empty_title_kept :
  document_title (create_full_html "<p>text</p>" (Some "")) = Some "" /\
  document_title (create_full_html "<p>text</p>" (Some ""))
    <> Some "Converted Document".
Proof. split; [vm_compute; reflexivity | vm_compute; discriminate]. Qed.

(** ** Cleanup *)

(** Unfold the plumbing of a method body. *)
Ltac run_body :=
  unfold mbind, mret, M_bind, M_ret, bind, ret, raise, get_world, get_self,
    lift, modify_world, modify_self, try_except, try_finally;
  cbn.

Lemma cleanup_one_run (temp_file : string) (c : Converter) (w : World) :
  cleanup_one temp_file (c, w) = (Ok tt, (c, cleanup_one_world w temp_file)).
Proof.
  unfold cleanup_one, cleanup_one_world, unlink. run_body.
  destruct (path_exists w temp_file); cbn; [|done].
  by destruct (unlink_raises w temp_file).
Qed.

Lemma cleanup_loop_run (l : list string) (c : Converter) (w : World) :
  cleanup_loop l (c, w) = (Ok tt, (c, cleanup_world l w)).
Proof.
  revert w. induction l as [|p l IH]; intros w; [done|].
  cbn [cleanup_loop]. unfold mbind, M_bind, bind.
  rewrite cleanup_one_run. apply IH.
Qed.

(** [cleanup] never raises, and leaves no file registered. *)
Lemma cleanup_run (c : Converter) (w : World) :
  cleanup (c, w)
  = (Ok tt, (set_temp_files [] c, cleanup_world (temp_files c) w)).
Proof.
  unfold cleanup, mbind, M_bind, bind, get_self. cbn.
  by rewrite cleanup_loop_run.
Qed.

Lemma cleanup_world_cons p l w :
  cleanup_world (p :: l) w = cleanup_world l (cleanup_one_world w p).
Proof. reflexivity. Qed.

Lemma cleanup_one_world_unlink_raises w p :
  unlink_raises (cleanup_one_world w p) = unlink_raises w.
Proof. unfold cleanup_one_world. by destruct (_ && _). Qed.

Lemma cleanup_one_world_render_log w p :
  render_log (cleanup_one_world w p) = render_log w.
Proof. unfold cleanup_one_world. by destruct (_ && _). Qed.

Lemma cleanup_world_render_log l w :
  render_log (cleanup_world l w) = render_log w.
Proof.
  revert w. induction l as [|p l IH]; intros w; [done|].
  by rewrite cleanup_world_cons, IH, cleanup_one_world_render_log.
Qed.

Lemma cleanup_one_world_keeps_none w p q :
  fs w q = None -> fs (cleanup_one_world w p) q = None.
Proof.
  unfold cleanup_one_world. intros Hq. destruct (_ && _); [|done].
  cbn. by destruct (String.eqb q p).
Qed.

Lemma cleanup_world_keeps_none l w q :
  fs w q = None -> fs (cleanup_world l w) q = None.
Proof.
  revert w. induction l as [|p l IH]; intros w Hq; [done|].
  rewrite cleanup_world_cons. apply IH. by apply cleanup_one_world_keeps_none.
Qed.

(** A registered file whose removal does not raise is gone after
    [cleanup]. *)
Lemma cleanup_world_removes l w p :
  p ∈ l -> unlink_raises w p = false -> fs (cleanup_world l w) p = None.
Proof.
  revert w. induction l as [|q l IH]; intros w Hin Hu.
  - by apply elem_of_nil in Hin.
  - rewrite cleanup_world_cons. apply elem_of_cons in Hin as [<-|Hin].
    + apply cleanup_world_keeps_none. unfold cleanup_one_world, path_exists.
      rewrite Hu. destruct (fs w p) eqn:E; cbn; [|done].
      by rewrite String.eqb_refl.
    + apply IH; [done|]. by rewrite cleanup_one_world_unlink_raises.
Qed.

(** A file that is not registered is not touched by [cleanup]. *)
Lemma cleanup_world_other l w p :
  p ∉ l -> fs (cleanup_world l w) p = fs w p.
Proof.
  revert w. induction l as [|q l IH]; intros w Hin; [done|].
  apply not_elem_of_cons in Hin as [Hne Hin].
  rewrite cleanup_world_cons, IH by done.
  unfold cleanup_one_world. destruct (_ && _); [|done].
  cbn. by destruct (String.eqb_spec p q).
Qed.

(** ** The pipeline *)

Section PipelineFacts.
Context {P : Pillow} {B : BeautifulSoup} {Mk : Markdown}.

(** [cleanup] runs after the [try] block on every exit and leaves its
    outcome as it is. *)
Lemma convert_to_pdf_run md out title (st : State) :
  convert_to_pdf md out title st
  = let '(r, (c1, w1)) :=
      try_except (convert_to_pdf_body md out title)
        (fun e => raise ("Error converting to PDF: " ++ e)) st in
    (r, (set_temp_files [] c1, cleanup_world (temp_files c1) w1)).
Proof.
  unfold convert_to_pdf, try_finally.
  destruct (try_except _ _ st) as [r [c1 w1]].
  by rewrite cleanup_run.
Qed.

(** The ways the [try] block can go: it raises before a temporary file is
    there; the file is created and writing it raises; or the file is
    written and registered and wkhtmltopdf is run on it. *)
Lemma convert_to_pdf_body_cases md out title (c : Converter) (w : World) :
  exists r c1 w1,
    convert_to_pdf_body md out title (c, w) = (r, (c1, w1)) /\
    (((exists e, r = Raise e) /\ c1 = c /\ fs w1 = fs w /\
      render_log w1 = render_log w)
     \/
     (exists n rest,
        temp_names w = Some n :: rest /\ r = Raise "write failed" /\ c1 = c /\
        w1 = set_fs (n ++ ".html") (Some (RegularFile EmptyString))
               (set_temp_names rest w))
     \/
     (exists n rest html,
        temp_names w = Some n :: rest /\
        c1 = set_temp_files (temp_files c ++ [n ++ ".html"]) c /\
        render_log w1
        = {| rc_input := n ++ ".html";
             rc_html := create_full_html html (Some (effective_title md title));
             rc_output := effective_output md out;
             rc_options := pdf_options c;
             rc_configuration := config c |} :: render_log w /\
        unlink_raises w1 = unlink_raises w /\
        (r = Ok (effective_output md out) \/ exists e, r = Raise e))).
Proof.
  unfold convert_to_pdf_body, read_markdown_file, read_text, markdown_to_html,
    write_temp_html, NamedTemporaryFile, write_text, pdfkit_from_file.
  run_body.
  destruct (read_bytes w md) as [text|e]; cbn;
    [|eexists _, _, _; split; [reflexivity|]; left; eauto 10].
  destruct (markdown_convert markdown_extensions text) as [html|e]; cbn;
    [|eexists _, _, _; split; [reflexivity|]; left; eauto 10].
  destruct (temp_names w) as [|[n|] rest] eqn:Etn; cbn;
    [eexists _, _, _; split; [reflexivity|]; left; eauto 10| |
     eexists _, _, _; split; [reflexivity|]; left; eauto 10].
  destruct (write_raises w _ _) eqn:Ewr; cbn;
    [eexists _, _, _; split; [reflexivity|]; right; left; eauto 10|].
  unfold read_text, read_bytes. run_body. rewrite String.eqb_refl. cbn.
  destruct (wkhtmltopdf w _ _ _) as [pdf|e]; cbn;
    eexists _, _, _; (split; [reflexivity|]); right; right;
    eexists n, rest, _; eauto 10.
Qed.

End PipelineFacts.

(** ** Strings *)

Lemma str_app_cons a (s t : string) : String a s ++ t = String a (s ++ t).
Proof. reflexivity. Qed.

Lemma str_app_nil_l (t : string) : "" ++ t = t.
Proof. reflexivity. Qed.

Ltac str_simpl := rewrite ?str_app_cons, ?str_app_nil_l; cbn.

Lemma str_app_nil_r (s : string) : s ++ "" = s.
Proof. induction s as [|a s IH]; str_simpl; [done|by rewrite IH]. Qed.

Lemma str_app_assoc (s t u : string) : (s ++ t) ++ u = s ++ t ++ u.
Proof. induction s as [|a s IH]; str_simpl; [done|by rewrite IH]. Qed.

Lemma str_length_app (s t : string) :
  String.length (s ++ t) = (String.length s + String.length t)%nat.
Proof. induction s as [|a s IH]; str_simpl; [done|by rewrite IH]. Qed.

Lemma take_app_length (s t : string) : Py.take (String.length s) (s ++ t) = s.
Proof. induction s as [|a s IH]; str_simpl; [done|by rewrite IH]. Qed.

Lemma drop_app_length (s t : string) : Py.drop (String.length s) (s ++ t) = t.
Proof. induction s as [|a s IH]; str_simpl; done. Qed.

Lemma has_char_app c (s t : string) :
  Py.has_char c (s ++ t) = Py.has_char c s || Py.has_char c t.
Proof.
  induction s as [|a s IH]; str_simpl; [done|]. rewrite IH. by rewrite orb_assoc.
Qed.

Lemma has_char_take c n (s : string) :
  Py.has_char c s = false -> Py.has_char c (Py.take n s) = false.
Proof.
  revert n. induction s as [|a s IH]; intros [|n]; cbn; try done.
  intros [-> ?]%orb_false_elim. cbn. by apply IH.
Qed.

Lemma split_no_sep sep (s : string) :
  Forall (fun x => Py.has_char sep x = false) (Py.split sep s).
Proof.
  induction s as [|a s IH]; cbn.
  - by repeat constructor.
  - destruct (Ascii.eqb a sep) eqn:E.
    + by constructor.
    + destruct (Py.split sep s) as [|x xs]; [repeat constructor; cbn; by rewrite E|].
      inversion IH; subst. constructor; [|done]. cbn. by rewrite E.
Qed.

Lemma split_id sep (s : string) :
  Py.has_char sep s = false -> Py.split sep s = [s].
Proof.
  induction s as [|a s IH]; cbn; [done|].
  intros [-> Hs]%orb_false_elim. by rewrite (IH Hs).
Qed.

Lemma split_app_sep sep (x y : string) :
  Py.has_char sep x = false ->
  Py.split sep (x ++ String sep y) = x :: Py.split sep y.
Proof.
  induction x as [|a x IH]; str_simpl.
  - intros _. by rewrite Ascii.eqb_refl.
  - intros [-> Hx]%orb_false_elim. by rewrite (IH Hx).
Qed.

Lemma join_cons2 (x y : string) l :
  Py.join "/" (x :: y :: l) = x ++ String "/" (Py.join "/" (y :: l)).
Proof. reflexivity. Qed.

Lemma split_join (l : list string) :
  l <> [] -> Forall (fun x => Py.has_char "/" x = false) l ->
  Py.split "/" (Py.join "/" l) = l.
Proof.
  induction l as [|x [|y l] IH]; intros Hne Hall; [done| |].
  - cbn. apply split_id. by inversion Hall.
  - rewrite join_cons2. inversion Hall; subst.
    rewrite split_app_sep by done. by rewrite IH.
Qed.

Lemma join_snoc (l : list string) (x : string) :
  l <> [] -> Py.join "/" (l ++ [x]) = Py.join "/" l ++ String "/" x.
Proof.
  induction l as [|a [|b l] IH]; intros Hne; [done|reflexivity|].
  change (Py.join "/" (a :: b :: (l ++ [x])%list) = Py.join "/" (a :: b :: l) ++ String "/" x).
  rewrite !join_cons2. rewrite str_app_assoc. rewrite str_app_cons.
  f_equal. f_equal. by apply IH.
Qed.

Lemma endswith_no_char c (s : string) :
  Py.has_char c s = false -> Py.endswith_char s c = false.
Proof.
  induction s as [|a s IH]; cbn; [done|].
  intros [E Hs]%orb_false_elim. destruct s; [done|]. by apply IH.
Qed.

Lemma endswith_app c (s t : string) :
  Py.truthy t = true -> Py.endswith_char (s ++ t) c = Py.endswith_char t c.
Proof.
  intros Ht. induction s as [|a s IH]; [done|].
  rewrite str_app_cons. cbn. destruct (s ++ t) eqn:E; [|done].
  destruct s; [by destruct t|done].
Qed.

Lemma rfind_app_dot (s t : string) :
  Py.has_char "." t = false ->
  Py.rfind "." (s ++ String "." t) = Some (String.length s).
Proof.
  intros Ht.
  assert (Py.rfind "." t = None) as Hnone.
  { induction t as [|a t IH]; cbn in *; [done|].
    apply orb_false_elim in Ht as [-> Ht]. by rewrite (IH Ht). }
  induction s as [|a s IH]; str_simpl.
  - by rewrite Hnone.
  - by rewrite IH.
Qed.

(** ** Paths *)

Lemma component_inv (x : string) :
  pathlib.component x = true ->
  exists a r, x = String a r /\ Ascii.eqb a "/" = false /\
    pathlib.keeps x = true /\ Py.has_char "/" x = false.
Proof.
  unfold pathlib.component. intros [Hk Hs%negb_true_iff]%andb_prop.
  destruct x as [|a r]; [done|]. exists a, r. repeat split; try done.
  cbn in Hs. by apply orb_false_elim in Hs as [? _].
Qed.

Lemma filter_keeps_components (l : list string) :
  Forall (fun x => pathlib.component x = true) l -> List.filter pathlib.keeps l = l.
Proof.
  induction 1 as [|x l Hx _ IH]; [done|].
  cbn. apply component_inv in Hx as (_ & _ & _ & _ & -> & _). by rewrite IH.
Qed.

Lemma components_no_slash (l : list string) :
  Forall (fun x => pathlib.component x = true) l ->
  Forall (fun x => Py.has_char "/" x = false) l.
Proof.
  intros Hl. eapply Forall_impl; [exact Hl|]. intros x Hx.
  by apply component_inv in Hx as (_ & _ & _ & _ & _ & ?).
Qed.

(** Parsing yields well-formed paths. *)
Lemma Path_well_formed (s : string) : pathlib.well_formed (pathlib.Path s).
Proof.
  unfold pathlib.Path, pathlib.splitroot.
  assert (forall rel, Forall (fun x => pathlib.component x = true)
                        (List.filter pathlib.keeps (Py.split "/" rel))) as Hrel.
  { intros rel. pose proof (split_no_sep "/" rel) as Hs.
    induction Hs as [|x l Hx _ IH]; [constructor|].
    cbn. destruct (pathlib.keeps x) eqn:Hk; [|done].
    constructor; [|done]. unfold pathlib.component. by rewrite Hk, Hx. }
  destruct (negb _); [|destruct (_ || _)]; split; cbn; try apply Hrel;
    set_solver.
Qed.

Lemma splitroot_root (r : string) a (j : string) :
  r ∈ [EmptyString; "/"; "//"] -> Ascii.eqb a "/" = false ->
  pathlib.splitroot (r ++ String a j) = (r, String a j).
Proof.
  intros Hr Ha. unfold pathlib.splitroot.
  repeat (apply elem_of_cons in Hr as [->|Hr];
          [rewrite ?str_app_cons, ?str_app_nil_l;
           cbn [pathlib.starts_slash Py.drop]; rewrite ?Ha; reflexivity|]).
  by apply elem_of_nil in Hr.
Qed.

(** The text of a well-formed path parses back to it. *)
Lemma Path_format (p : PurePath) :
  pathlib.well_formed p -> pathlib.Path (pathlib.format p) = p.
Proof.
  destruct p as [r t]. intros [Hr Ht]. cbn in Hr, Ht.
  unfold pathlib.format. cbn [root tail].
  destruct t as [|x t].
  - cbn [Py.join]. rewrite str_app_nil_r.
    repeat (apply elem_of_cons in Hr as [->|Hr]; [reflexivity|]).
    by apply elem_of_nil in Hr.
  - assert (exists a j, Py.join "/" (x :: t) = String a j /\ Ascii.eqb a "/" = false)
      as (a & j & Hj & Ha).
    { inversion Ht as [|? ? Hx _]; subst.
      apply component_inv in Hx as (a & rx & -> & Ha & _).
      destruct t; [by exists a, rx|].
      rewrite join_cons2, str_app_cons. eauto. }
    assert (List.filter pathlib.keeps (Py.split "/" (Py.join "/" (x :: t))) = x :: t)
      as Hsplit.
    { rewrite split_join; [|done|by apply components_no_slash].
      by apply filter_keeps_components. }
    rewrite Hj in *. unfold pathlib.Path.
    rewrite splitroot_root by done. by rewrite Hsplit.
Qed.

(** Joining a component to a well-formed path appends it. *)
Lemma joinpath_component (p : PurePath) (x : string) :
  pathlib.well_formed p -> pathlib.component x = true ->
  pathlib.joinpath p x = {| root := root p; tail := tail p ++ [x] |}.
Proof.
  intros Hwf Hx. unfold pathlib.joinpath.
  assert (pathlib.well_formed {| root := root p; tail := tail p ++ [x] |}) as Hwf'.
  { destruct Hwf as [Hr Ht]. split; [done|]. cbn. apply Forall_app. by split; [|constructor]. }
  rewrite <- (Path_format _ Hwf') at 1. f_equal.
  unfold pathlib.format. cbn [root tail].
  destruct (component_inv _ Hx) as (a & rx & -> & Ha & _ & Hns).
  unfold posixpath.join, Py.startswith. cbn [String.prefix].
  destruct (ascii_dec "/" a) as [<-|_]; [done|].
  destruct Hwf as [Hr Ht]. destruct p as [r t]. cbn [root tail] in *.
  destruct t as [|y t].
  - cbn [Py.join app]. rewrite str_app_nil_r.
    repeat (apply elem_of_cons in Hr as [->|Hr]; [reflexivity|]).
    by apply elem_of_nil in Hr.
  - rewrite join_snoc by done.
    assert (Py.truthy (Py.join "/" (y :: t)) = true
            /\ Py.endswith_char (Py.join "/" (y :: t)) "/" = false) as [Htr Hends].
    { clear Hwf' Hr. revert y Ht. induction t as [|z t IH]; intros y Ht.
      - inversion Ht as [|? ? Hy _]; subst.
        apply component_inv in Hy as (b & ry & -> & _ & _ & Hy).
        split; [done|]. by apply endswith_no_char.
      - inversion Ht as [|? ? Hy Ht']; subst.
        destruct (IH z Ht') as [Htz Hez].
        rewrite join_cons2. split.
        + by destruct y.
        + rewrite endswith_app by (by destruct (Py.join "/" (z :: t))).
          change (String "/" (Py.join "/" (z :: t)))
            with ("/" ++ Py.join "/" (z :: t)).
          by rewrite endswith_app. }
    assert (Py.truthy (r ++ Py.join "/" (y :: t)) = true) as ->.
    { destruct r; [done|done]. }
    rewrite endswith_app, Hends by done. cbn [negb orb].
    by rewrite str_app_assoc.
Qed.

Lemma Forall_removelast {A} (Q : A -> Prop) (l : list A) :
  Forall Q l -> Forall Q (removelast l).
Proof.
  induction 1 as [|x l Hx Hl IH]; [constructor|].
  cbn. destruct l; [constructor|]. by constructor.
Qed.

Lemma parent_well_formed (p : PurePath) :
  pathlib.well_formed p -> pathlib.well_formed (pathlib.parent p).
Proof.
  intros [Hr Ht]. unfold pathlib.parent. destruct p as [r t]. cbn [root tail] in *.
  destruct t as [|x t]; [done|].
  split; [done|]. cbn [tail]. by apply Forall_removelast.
Qed.

Lemma name_no_slash (p : PurePath) :
  pathlib.well_formed p -> Py.has_char "/" (pathlib.name p) = false.
Proof.
  intros [_ Ht]. unfold pathlib.name.
  induction Ht as [|x l Hx Hl IH]; [done|].
  cbn. destruct l; [|done].
  by apply component_inv in Hx as (_ & _ & _ & _ & _ & ?).
Qed.

Lemma stem_no_slash (p : PurePath) :
  pathlib.well_formed p -> Py.has_char "/" (pathlib.stem p) = false.
Proof.
  intros Hwf. pose proof (name_no_slash p Hwf) as Hn. unfold pathlib.stem.
  destruct (Py.rfind "." (pathlib.name p)) as [i|]; [|done].
  case_bool_decide; [|done]. by apply has_char_take.
Qed.

Lemma stem_nonempty (p : PurePath) :
  pathlib.name p <> "" -> pathlib.stem p <> "".
Proof.
  unfold pathlib.stem. intros Hn.
  destruct (Py.rfind "." (pathlib.name p)) as [i|]; [|done].
  case_bool_decide as Hi; [|done].
  destruct (pathlib.name p); [done|]. destruct i; [lia|done].
Qed.

Lemma pdf_name_component (s : string) :
  Py.has_char "/" s = false -> pathlib.component (s ++ ".pdf") = true.
Proof.
  intros Hs. unfold pathlib.component, pathlib.keeps.
  rewrite has_char_app, Hs. cbn [negb andb orb Py.has_char].
  destruct s as [|a [|b s]]; try done.
  - rewrite !str_app_cons, str_app_nil_l. cbn.
    by destruct (Ascii.eqb a ".").
  - rewrite !str_app_cons. cbn. by destruct (Ascii.eqb a ".").
Qed.

(** The default output path, component by component. *)
Lemma default_output_parts (md : string) :
  default_output md
  = {| root := root (pathlib.Path md);
       tail := removelast (tail (pathlib.Path md))
               ++ [pathlib.stem (pathlib.Path md) ++ ".pdf"] |}.
Proof.
  unfold default_output.
  pose proof (Path_well_formed md) as Hwf.
  rewrite joinpath_component.
  - unfold pathlib.parent. by destruct (tail (pathlib.Path md)) eqn:E; rewrite ?E.
  - by apply parent_well_formed.
  - apply pdf_name_component. by apply stem_no_slash.
Qed.

(** Where the output goes when no destination is given: beside the source,
    under the same stem, with the suffix [.pdf]. *)
Lemma default_output_beside_source (md : string) :
  pathlib.name (pathlib.Path md) <> "" ->
  pathlib.parent (default_output md) = pathlib.parent (pathlib.Path md) /\
  pathlib.name (default_output md) = pathlib.stem (pathlib.Path md) ++ ".pdf" /\
  pathlib.stem (default_output md) = pathlib.stem (pathlib.Path md) /\
  pathlib.suffix (default_output md) = ".pdf".
Proof.
  intros Hname. rewrite default_output_parts.
  set (p := pathlib.Path md) in *. set (s := pathlib.stem p).
  assert (s <> "") as Hs by by apply stem_nonempty.
  assert (tail p <> []) as Ht.
  { intros E. apply Hname. unfold pathlib.name. by rewrite E. }
  assert (pathlib.name {| root := root p; tail := removelast (tail p) ++ [s ++ ".pdf"] |}
          = s ++ ".pdf") as Hn.
  { unfold pathlib.name. cbn [tail]. apply last_last. }
  assert (Py.rfind "." (s ++ ".pdf") = Some (String.length s)) as Hrf.
  { by apply (rfind_app_dot s "pdf"). }
  assert (0 < String.length s < String.length (s ++ ".pdf") - 1)%nat as Hlen.
  { rewrite str_length_app. cbn. destruct s; [done|cbn; lia]. }
  split; [|split; [|split]].
  - unfold pathlib.parent. cbn [tail root].
    destruct (app (removelast (tail p)) [s ++ ".pdf"]) eqn:E.
    { by apply app_eq_nil in E as [_ ?]. }
    rewrite <- E, removelast_last. by destruct (tail p).
  - done.
  - unfold pathlib.stem. rewrite Hn, Hrf.
    rewrite bool_decide_eq_true_2 by done. apply take_app_length.
  - unfold pathlib.suffix. rewrite Hn, Hrf.
    rewrite bool_decide_eq_true_2 by done. apply drop_app_length.
Qed.

Section RunFacts.
Context {P : Pillow} {B : BeautifulSoup} {Mk : Markdown}.

(** The ways a run of [convert_to_pdf] can go, after its [cleanup]. *)
Lemma convert_to_pdf_cases md out title (c : Converter) (w : World) :
  exists r c' w',
    convert_to_pdf md out title (c, w) = (r, (c', w')) /\
    temp_files c' = [] /\ pdf_options c' = pdf_options c /\
    (((exists e, r = Raise e) /\ render_log w' = render_log w)
     \/
     (exists n rest,
        temp_names w = Some n :: rest /\
        r = Raise "Error converting to PDF: write failed" /\
        w' = cleanup_world (temp_files c)
               (set_fs (n ++ ".html") (Some (RegularFile EmptyString))
                  (set_temp_names rest w)))
     \/
     (exists n rest html,
        temp_names w = Some n :: rest /\
        render_log w'
        = {| rc_input := n ++ ".html";
             rc_html := create_full_html html (Some (effective_title md title));
             rc_output := effective_output md out;
             rc_options := pdf_options c;
             rc_configuration := config c |} :: render_log w /\
        (unlink_raises w (n ++ ".html") = false -> fs w' (n ++ ".html") = None) /\
        (r = Ok (effective_output md out) \/ exists e, r = Raise e))).
Proof.
  rewrite convert_to_pdf_run. unfold try_except.
  destruct (convert_to_pdf_body_cases md out title c w)
    as (r & c1 & w1 & -> & [(He & -> & Hfs & Hlog)|[(n & rest & Etn & -> & -> & ->)|
         (n & rest & html & Etn & -> & Hlog & Hu & Hr)]]).
  - destruct He as [e ->]. cbn.
    eexists _, _, _. split; [reflexivity|]. split; [done|]. split; [done|].
    left. split; [eauto|]. by rewrite cleanup_world_render_log.
  - cbn. eexists _, _, _. split; [reflexivity|]. split; [done|]. split; [done|].
    right. left. eauto 10.
  - assert (forall l, unlink_raises w (n ++ ".html") = false ->
              fs (cleanup_world (l ++ [n ++ ".html"]) w1) (n ++ ".html") = None)
      as Hgone.
    { intros l Hunlink. apply cleanup_world_removes; [|by rewrite Hu].
      apply elem_of_app. right. constructor. }
    destruct Hr as [->|[e ->]]; cbn;
      eexists _, _, _; (split; [reflexivity|]); (split; [done|]); (split; [done|]);
      right; right; exists n, rest, html;
      rewrite cleanup_world_render_log; eauto 10.
Qed.

End RunFacts.

(** C7.  For a source path with a file name: the default output path lies
    in the directory of the source, has the stem of the source and the
    suffix [.pdf]; a run without a destination hands this path to
    wkhtmltopdf and returns it when it succeeds; a run without a title puts
    the stem of the source in the document it renders. *)
Theorem convert_to_pdf_defaults {P : Pillow} {B : BeautifulSoup} {Mk : Markdown}
    (md : string) (c : Converter) (w : World) :
  pathlib.name (pathlib.Path md) <> "" ->
  (pathlib.parent (default_output md) = pathlib.parent (pathlib.Path md) /\
   pathlib.stem (default_output md) = pathlib.stem (pathlib.Path md) /\
   pathlib.suffix (default_output md) = ".pdf") /\
  (forall out title, truthy_path out = false ->
     exists r c' w',
       convert_to_pdf md out title (c, w) = (r, (c', w')) /\
       (((exists e, r = Raise e) /\ render_log w' = render_log w) \/
        (exists call,
           render_log w' = call :: render_log w /\
           rc_output call = PPath (default_output md) /\
           (r = Ok (PPath (default_output md)) \/ exists e, r = Raise e)))) /\
  (forall out title, Py.truthy_opt title = false ->
     exists r c' w',
       convert_to_pdf md out title (c, w) = (r, (c', w')) /\
       (((exists e, r = Raise e) /\ render_log w' = render_log w) \/
        (exists call html,
           render_log w' = call :: render_log w /\
           rc_html call
           = create_full_html html (Some (pathlib.stem (pathlib.Path md)))))).
Proof.
  intros Hname. split; [|split].
  - destruct (default_output_beside_source md Hname) as (? & _ & ? & ?). done.
  - intros out title Hout.
    destruct (convert_to_pdf_cases md out title c w)
      as (r & c' & w' & Hrun & _ & _ & Hcases).
    exists r, c', w'. split; [done|].
    unfold effective_output in Hcases. rewrite Hout in Hcases. cbn [negb] in Hcases.
    destruct Hcases as [?|[(n & rest & _ & -> & ->)|
                           (n & rest & html & _ & Hlog & _ & Hr)]].
    + by left.
    + left. split; [eauto|]. by rewrite cleanup_world_render_log.
    + right. eexists. split; [exact Hlog|]. done.
  - intros out title Htitle.
    destruct (convert_to_pdf_cases md out title c w)
      as (r & c' & w' & Hrun & _ & _ & Hcases).
    exists r, c', w'. split; [done|].
    unfold effective_title in Hcases. rewrite Htitle in Hcases. cbn [negb] in Hcases.
    destruct Hcases as [?|[(n & rest & _ & -> & ->)|
                           (n & rest & html & _ & Hlog & _ & Hr)]].
    + by left.
    + left. split; [eauto|]. by rewrite cleanup_world_render_log.
    + right. eexists _, html. split; [exact Hlog|]. done.
Qed.

(** The theorem at [doc/report.md] in the small world, where the run
    succeeds. *)
Lemma convert_to_pdf_defaults_witness :
  pathlib.name (pathlib.Path "doc/report.md") <> "" /\
  pathlib.str (default_output "doc/report.md") = "doc/report.pdf" /\
  pathlib.stem (default_output "doc/report.md") = "report" /\
  exists c' w' call html,
    convert_to_pdf "doc/report.md" None None (new_converter None, Toy.world)
    = (Ok (PPath (default_output "doc/report.md")), (c', w')) /\
    render_log w' = [call] /\
    rc_output call = PPath (default_output "doc/report.md") /\
    rc_html call = create_full_html html (Some "report").
Proof.
  assert (pathlib.name (pathlib.Path "doc/report.md") <> "") as Hname
    by (vm_compute; discriminate).
  destruct (@convert_to_pdf_defaults Toy.pillow Toy.soup Toy.md
              "doc/report.md" (new_converter None) Toy.world Hname)
    as ((_ & Hstem & _) & Hout & Htitle).
  split; [exact Hname|]. split; [vm_compute; reflexivity|].
  split; [rewrite Hstem; vm_compute; reflexivity|].
  destruct (Hout None None eq_refl) as (r & c' & w' & Hrun & Hcases).
  destruct (Htitle None None eq_refl) as (r2 & c2 & w2 & Hrun2 & Hcases2).
  rewrite Hrun in Hrun2. injection Hrun2 as <- <- <-.
  assert (fst (convert_to_pdf "doc/report.md" None None (new_converter None, Toy.world))
          = Ok (PPath (default_output "doc/report.md"))) as Hok
    by (vm_compute; reflexivity).
  rewrite Hrun in Hok. cbn [fst] in Hok. subst r.
  destruct Hcases as [[[e He] _]|(call & Hlog & Hco & _)]; [discriminate He|].
  destruct Hcases2 as [[[e He] _]|(call2 & html & Hlog2 & Hhtml)]; [discriminate He|].
  exists c', w', call, html. split; [exact Hrun|].
  rewrite Hlog in Hlog2. injection Hlog2 as <-.
  split; [exact Hlog|]. split; [exact Hco|].
  rewrite Hhtml. reflexivity.
Defined.

(** ** The options *)

(** C6 (as amended).  The option set of a new converter has page size A4
    and four margins of 0.75 inch, and a run of such a converter hands
    these to wkhtmltopdf.  Margins of 1 inch are what the front end passes
    as overrides from the values its settings start with. *)
Theorem default_pdf_options_values
    {P : Pillow} {B : BeautifulSoup} {Mk : Markdown}
    (path : option string) (w : World)
    (md : string) (out : option pathlike) (title : option string) :
  (pdf_options (new_converter path) !! "page-size" = Some (Some "A4") /\
   pdf_options (new_converter path) !! "margin-top" = Some (Some "0.75in") /\
   pdf_options (new_converter path) !! "margin-right" = Some (Some "0.75in") /\
   pdf_options (new_converter path) !! "margin-bottom" = Some (Some "0.75in") /\
   pdf_options (new_converter path) !! "margin-left" = Some (Some "0.75in")) /\
  (exists r c' w',
     convert_to_pdf md out title (new_converter path, w) = (r, (c', w')) /\
     (render_log w' = render_log w \/
      exists call,
        render_log w' = call :: render_log w /\
        rc_options call !! "page-size" = Some (Some "A4") /\
        rc_options call !! "margin-top" = Some (Some "0.75in") /\
        rc_options call !! "margin-right" = Some (Some "0.75in") /\
        rc_options call !! "margin-bottom" = Some (Some "0.75in") /\
        rc_options call !! "margin-left" = Some (Some "0.75in"))) /\
  (let c := update_options (get_pdf_options initial_settings) (new_converter path) in
   pdf_options c !! "page-size" = Some (Some "A4") /\
   pdf_options c !! "margin-top" = Some (Some "1in") /\
   pdf_options c !! "margin-right" = Some (Some "1in") /\
   pdf_options c !! "margin-bottom" = Some (Some "1in") /\
   pdf_options c !! "margin-left" = Some (Some "1in")).
Proof.
  split; [|split].
  - repeat split; vm_compute; reflexivity.
  - destruct (convert_to_pdf_cases md out title (new_converter path) w)
      as (r & c' & w' & Hrun & _ & _ & Hcases).
    exists r, c', w'. split; [done|].
    destruct Hcases as [[_ ?]|[(n & rest & _ & _ & ->)|
                               (n & rest & html & _ & Hlog & _ & _)]].
    + by left.
    + left. by rewrite cleanup_world_render_log.
    + right. eexists. split; [exact Hlog|].
      repeat split; vm_compute; reflexivity.
  - repeat split; vm_compute; reflexivity.
Qed.

(** C6 (as stated) fails: the margins of a new converter are 0.75 inch, not
    1 inch, and so are those of the one run of wkhtmltopdf in a conversion
    with the defaults. *)
Lemma default_margins_not_one_inch :
  pdf_options (new_converter None) !! "margin-top" = Some (Some "0.75in") /\
  pdf_options (new_converter None) !! "margin-top" <> Some (Some "1in") /\
  map (fun call => rc_options call !! "margin-top")
    (render_log
       (snd (snd (convert_to_pdf "doc/report.md" None (Some "Report")
                    (new_converter None, Toy.world)))))
  = [Some (Some "0.75in")].
Proof.
  split; [|split].
  - vm_compute. reflexivity.
  - vm_compute. discriminate.
  - vm_compute. reflexivity.
Qed.

(** ** The temporary file *)

(** C3 fails on a run whose write to the temporary file raises: the file
    was created by the run and is not there before it; the run raises, the
    converter has no file registered any more, and the file is still
    there. *)
Theorem convert_to_pdf_leaves_unwritten_temp_file :
  fs world_write_raises "/tmp/tmp0001.html" = None /\
  exists c' w',
    convert_to_pdf "doc/report.md" None (Some "Report")
      (new_converter None, world_write_raises)
    = (Raise "Error converting to PDF: write failed", (c', w')) /\
    temp_files c' = [] /\
    fs w' "/tmp/tmp0001.html" = Some (RegularFile "").
Proof.
  split; [reflexivity|].
  eexists _, _. split; [vm_compute; reflexivity|].
  split; vm_compute; reflexivity.
Qed.

(** * More properties *)

(** ** [cleanup] *)

Lemma cleanup_world_unlink_raises l w :
  unlink_raises (cleanup_world l w) = unlink_raises w.
Proof.
  revert w. induction l as [|p l IH]; intros w; [done|].
  by rewrite cleanup_world_cons, IH, cleanup_one_world_unlink_raises.
Qed.

Lemma cleanup_world_stuck l w p :
  unlink_raises w p = true -> fs (cleanup_world l w) p = fs w p.
Proof.
  revert w. induction l as [|q l IH]; intros w Hu; [done|].
  rewrite cleanup_world_cons, IH
    by (by rewrite cleanup_one_world_unlink_raises).
  unfold cleanup_one_world.
  destruct (path_exists w q && negb (unlink_raises w q)) eqn:E; [|done].
  cbn. destruct (String.eqb_spec p q) as [->|]; [|done].
  rewrite Hu in E. by rewrite andb_false_r in E.
Qed.

(** X1.  [cleanup] never raises and always forgets every registered file.
    Of the registered files, those whose removal does not raise are gone
    afterwards and those whose removal raises stay; no other path is
    touched, and the options of the converter are kept. *)
Theorem cleanup_effect (c : Converter) (w : World) :
  exists w',
    cleanup (c, w) = (Ok tt, (set_temp_files [] c, w')) /\
    temp_files (set_temp_files [] c) = [] /\
    pdf_options (set_temp_files [] c) = pdf_options c /\
    (forall p, p ∈ temp_files c -> unlink_raises w p = false -> fs w' p = None) /\
    (forall p, unlink_raises w p = true -> fs w' p = fs w p) /\
    (forall p, p ∉ temp_files c -> fs w' p = fs w p).
Proof.
  exists (cleanup_world (temp_files c) w).
  split; [apply cleanup_run|]. split; [done|]. split; [done|].
  split; [|split].
  - intros p. apply cleanup_world_removes.
  - intros p. apply cleanup_world_stuck.
  - intros p. apply cleanup_world_other.
Qed.

(** The theorem on two registered files, one of which cannot be removed,
    beside a third file that is not registered. *)
Lemma cleanup_effect_witness :
  exists w',
    cleanup (converter_two_temps, world_two_temps)
    = (Ok tt, (set_temp_files [] converter_two_temps, w')) /\
    fs w' "/tmp/a.html" = None /\
    fs w' "/tmp/b.html" = Some (RegularFile "<html>") /\
    fs w' "/tmp/c.html" = Some (RegularFile "<html>").
Proof.
  destruct (cleanup_effect converter_two_temps world_two_temps)
    as (w' & Hrun & _ & _ & Hgone & Hstuck & Hother).
  exists w'. split; [exact Hrun|]. split; [|split].
  - apply Hgone; [|reflexivity]. constructor.
  - rewrite Hstuck by reflexivity. reflexivity.
  - rewrite Hother; [reflexivity|].
    intros Hin. apply elem_of_cons in Hin as [Hin|Hin]; [discriminate Hin|].
    apply elem_of_cons in Hin as [Hin|Hin]; [discriminate Hin|].
    by apply elem_of_nil in Hin.
Defined.

(** ** The exits of [convert_to_pdf] *)

Lemma prefix_app (p x : string) : String.prefix p (p ++ x) = true.
Proof.
  induction p as [|a p IH]; [by destruct x|].
  rewrite str_app_cons. cbn. by destruct (ascii_dec a a).
Qed.

Section ExitFacts.
Context {P : Pillow} {B : BeautifulSoup} {Mk : Markdown}.

Lemma convert_to_pdf_body_unreadable md out title c w e :
  read_bytes w md = Raise e ->
  convert_to_pdf_body md out title (c, w)
  = (Raise ("Error reading markdown file: " ++ e), (c, w)).
Proof.
  intros Hr. unfold convert_to_pdf_body, read_markdown_file, read_text.
  run_body. by rewrite Hr.
Qed.



End ExitFacts.


(** X2.  Whatever a run of [convert_to_pdf] does, the converter comes out
    with no file registered and with the options and configuration it
    had; a result is the output path the run worked with, and the message
    of an exception begins with [Error converting to PDF: ]. *)
Theorem convert_to_pdf_outcome {P : Pillow} {B : BeautifulSoup} {Mk : Markdown}
    md out title (c c' : Converter) (w w' : World) (r : result pathlike) :
  convert_to_pdf md out title (c, w) = (r, (c', w')) ->
  temp_files c' = [] /\ pdf_options c' = pdf_options c /\ config c' = config c /\
  (forall p, r = Ok p -> p = effective_output md out) /\
  (forall e, r = Raise e ->
     String.prefix "Error converting to PDF: " e = true).
Proof.
  rewrite convert_to_pdf_run. unfold try_except.
  destruct (convert_to_pdf_body_cases md out title c w)
    as (r0 & c1 & w1 & -> & Hcases).
  assert (config c1 = config c /\ pdf_options c1 = pdf_options c) as [Hcfg Hopt].
  { destruct Hcases as [(_ & -> & _)|[(? & ? & _ & _ & -> & _)|
                                      (? & ? & ? & _ & -> & _)]]; done. }
  assert (forall p, r0 = Ok p -> p = effective_output md out) as Hok.
  { intros p ->.
    destruct Hcases as [([e He] & _)|[(? & ? & _ & He & _)|
                                      (? & ? & ? & _ & _ & _ & _ & [He|[e He]])]];
      congruence. }
  destruct r0 as [p|e]; cbn; intros [= <- <- <-];
    (split; [done|]); (split; [done|]); (split; [done|]); split.
  - intros p' [= <-]. by apply Hok.
  - intros e' [=].
  - intros p' [=].
  - intros e' [= <-]. apply prefix_app.
Qed.

(** The theorem on a run in a world where wkhtmltopdf fails. *)
Lemma convert_to_pdf_outcome_witness :
  exists c' w',
    convert_to_pdf "doc/report.md" None None (converter_two_temps, world_render_fails)
    = (Raise "Error converting to PDF: wkhtmltopdf reported an error", (c', w')) /\
    temp_files c' = [] /\ pdf_options c' = default_pdf_options.
Proof.
  destruct (convert_to_pdf "doc/report.md" None None
              (converter_two_temps, world_render_fails)) as [r [c' w']] eqn:E.
  destruct (@convert_to_pdf_outcome Toy.pillow Toy.soup Toy.md _ _ _ _ _ _ _ _ E)
    as (Htf & Hopt & _).
  assert (r = Raise "Error converting to PDF: wkhtmltopdf reported an error") as ->.
  { pose proof (f_equal fst E) as E1. cbn [fst] in E1. rewrite <- E1.
    vm_compute. reflexivity. }
  exists c', w'. split; [reflexivity|]. split; [exact Htf|]. exact Hopt.
Defined.

(** X3.  When the source cannot be read, the run raises
    [Error converting to PDF: Error reading markdown file: ...]; nothing is
    rendered and no temporary file is made: the world is the one before,
    after the removal of the files that were registered, and is unchanged
    when there were none. *)
Theorem convert_to_pdf_unreadable_source
    {P : Pillow} {B : BeautifulSoup} {Mk : Markdown}
    md out title (c : Converter) (w : World) (e : string) :
  read_bytes w md = Raise e ->
  convert_to_pdf md out title (c, w)
  = (Raise ("Error converting to PDF: Error reading markdown file: " ++ e),
     (set_temp_files [] c, cleanup_world (temp_files c) w)) /\
  (temp_files c = [] -> cleanup_world (temp_files c) w = w).
Proof.
  intros Hr. split; [|by intros ->].
  rewrite convert_to_pdf_run. unfold try_except.
  by rewrite (convert_to_pdf_body_unreadable _ _ _ _ _ _ Hr).
Qed.

Lemma convert_to_pdf_unreadable_source_witness :
  convert_to_pdf "doc/missing.md" None None (new_converter None, Toy.world)
  = (Raise "Error converting to PDF: Error reading markdown file: No such file or directory",
     (set_temp_files [] (new_converter None), Toy.world)).
Proof.
  destruct (@convert_to_pdf_unreadable_source Toy.pillow Toy.soup Toy.md
              "doc/missing.md" None None (new_converter None) Toy.world
              "No such file or directory" eq_refl) as [Hrun Hsame].
  rewrite Hrun. rewrite (Hsame eq_refl). reflexivity.
Defined.







(** ** More on the embedder *)

Lemma contains_cons a (r p : string) :
  Py.contains (String a r) p = String.prefix p (String a r) || Py.contains r p.
Proof. reflexivity. Qed.

Lemma contains_app_r (s t p : string) :
  Py.contains t p = true -> Py.contains (s ++ t) p = true.
Proof.
  intros Ht. induction s as [|a s IH]; [done|].
  rewrite str_app_cons, contains_cons, IH. apply orb_true_r.
Qed.

Section EmbedderMore.
Context {P : Pillow}.
Variable w : World.
Variable base_path : option string.

Lemma rewrite_img_style (data : bytes) (a : list (string * string)) :
  Attrs.get "style" (rewrite_img data a)
  = Some (if Py.contains (default "" (Attrs.get "style" a)) "max-width"
          then default "" (Attrs.get "style" a)
          else default "" (Attrs.get "style" a) ++ responsive_style).
Proof.
  unfold rewrite_img. rewrite attrs_get_set_eq.
  rewrite attrs_get_set_ne by done.
  by destruct (Py.contains _ _).
Qed.

Lemma rewrite_img_other (data : bytes) (a : list (string * string)) (k : string) :
  k <> "src" -> k <> "style" ->
  Attrs.get k (rewrite_img data a) = Attrs.get k a.
Proof.
  intros Hsrc Hstyle. unfold rewrite_img.
  rewrite attrs_get_set_ne by done. by rewrite attrs_get_set_ne.
Qed.

Lemma embed_node_no_img (n : node) :
  find_all_img n = [] -> embed_node w base_path n = n.
Proof.
  induction n as [s|name a children IH] using node_forall_ind; [done|].
  cbn [find_all_img embed_node]. intros Hnone.
  apply app_eq_nil in Hnone as [Hname Hch].
  destruct (String.eqb name "img"); [done|]. f_equal.
  induction IH as [|c cs Hc _ IHcs]; [done|].
  cbn in Hch. apply app_eq_nil in Hch as [Hc0 Hcs].
  cbn. by rewrite Hc, IHcs.
Qed.

Lemma erase_embed_node (n : node) :
  erase_img_attrs (embed_node w base_path n) = erase_img_attrs n.
Proof.
  induction n as [s|name a children IH] using node_forall_ind; [done|].
  cbn [embed_node erase_img_attrs]. f_equal.
  - by destruct (String.eqb name "img").
  - rewrite map_map. induction IH as [|c cs Hc _ IHcs]; [done|].
    cbn. by rewrite Hc, IHcs.
Qed.

End EmbedderMore.

(** X7.  A tag whose image is embedded gets a style that holds
    [max-width]: a style it had is kept as it is when it mentions
    [max-width] already, and is otherwise kept with
    [max-width: 100%; height: auto;] added behind it. *)
Theorem embed_img_style {P : Pillow} (w : World) (base_path : option string)
    (a : list (string * string)) (src : string) (data : bytes) :
  Attrs.get "src" a = Some src -> Py.truthy src = true ->
  download_image w src base_path = Some data -> Py.truthy data = true ->
  let old := default "" (Attrs.get "style" a) in
  exists style,
    Attrs.get "style" (embed_img w base_path a) = Some style /\
    Py.contains style "max-width" = true /\
    (Py.contains old "max-width" = true -> style = old) /\
    (Py.contains old "max-width" = false ->
       style = old ++ "max-width: 100%; height: auto;").
Proof.
  intros Hs Ht Hd Hdt old.
  rewrite (embed_img_available _ _ _ _ _ Hs Ht Hd Hdt), rewrite_img_style.
  fold old. eexists. split; [reflexivity|].
  destruct (Py.contains old "max-width") eqn:E; repeat split; try done.
  by apply contains_app_r.
Qed.

Lemma embed_img_style_witness :
  Attrs.get "style"
    (embed_img Toy.world (Some "doc/report.md")
       [("src", "pic.jpg"); ("style", "border: 0;")])
  = Some "border: 0;max-width: 100%; height: auto;" /\
  Attrs.get "style"
    (embed_img Toy.world (Some "doc/report.md")
       [("style", "max-width: 50%"); ("src", "pic.jpg")])
  = Some "max-width: 50%".
Proof.
  split.
  - destruct (@embed_img_style Toy.pillow Toy.world (Some "doc/report.md")
                [("src", "pic.jpg"); ("style", "border: 0;")] "pic.jpg"
                (Toy.image_bytes 1000 2) eq_refl eq_refl eq_refl eq_refl)
      as (style & -> & _ & _ & Hadd).
    by rewrite (Hadd eq_refl).
  - destruct (@embed_img_style Toy.pillow Toy.world (Some "doc/report.md")
                [("style", "max-width: 50%"); ("src", "pic.jpg")] "pic.jpg"
                (Toy.image_bytes 1000 2) eq_refl eq_refl eq_refl eq_refl)
      as (style & -> & _ & Hkeep & _).
    by rewrite (Hkeep eq_refl).
Defined.

(** X8.  A tag without a source, with an empty source, or whose image is
    an empty sequence of bytes is left as it is. *)
Theorem embed_img_skipped {P : Pillow} (w : World) (base_path : option string)
    (a : list (string * string)) :
  (Attrs.get "src" a = None -> embed_img w base_path a = a) /\
  (Attrs.get "src" a = Some "" -> embed_img w base_path a = a) /\
  (forall src, Attrs.get "src" a = Some src ->
     download_image w src base_path = Some "" ->
     embed_img w base_path a = a).
Proof.
  unfold embed_img. split; [|split].
  - by intros ->.
  - by intros ->.
  - intros src -> Hd. rewrite Hd. by destruct (Py.truthy src).
Qed.

Lemma embed_img_skipped_witness :
  embed_img world_empty_image (Some "doc/report.md") [("alt", "logo")]
    = [("alt", "logo")] /\
  embed_img world_empty_image (Some "doc/report.md") [("src", "")]
    = [("src", "")] /\
  embed_img world_empty_image (Some "doc/report.md") [("src", "pic.jpg")]
    = [("src", "pic.jpg")].
Proof.
  split; [|split].
  - destruct (@embed_img_skipped Toy.pillow world_empty_image
                (Some "doc/report.md") [("alt", "logo")]) as (H1 & _ & _).
    apply H1. reflexivity.
  - destruct (@embed_img_skipped Toy.pillow world_empty_image
                (Some "doc/report.md") [("src", "")]) as (_ & H2 & _).
    apply H2. reflexivity.
  - destruct (@embed_img_skipped Toy.pillow world_empty_image
                (Some "doc/report.md") [("src", "pic.jpg")]) as (_ & _ & H3).
    apply (H3 "pic.jpg"); reflexivity.
Defined.

(** X9.  The embedder changes no attribute of a tag other than its source
    and its style. *)
Theorem embed_img_other_attributes {P : Pillow}
    (w : World) (base_path : option string)
    (a : list (string * string)) (k : string) :
  k <> "src" -> k <> "style" ->
  Attrs.get k (embed_img w base_path a) = Attrs.get k a.
Proof.
  intros Hsrc Hstyle.
  destruct (embed_img_cases w base_path a) as [->|(src & data & _ & _ & ->)];
    [done|].
  by apply rewrite_img_other.
Qed.

Lemma embed_img_other_attributes_witness :
  Attrs.get "alt"
    (embed_img Toy.world (Some "doc/report.md") [("alt", "a"); ("src", "pic.jpg")])
  = Some "a".
Proof.
  rewrite (@embed_img_other_attributes Toy.pillow Toy.world (Some "doc/report.md")
             [("alt", "a"); ("src", "pic.jpg")] "alt");
    [reflexivity|discriminate|discriminate].
Defined.

(** X10.  The embedder changes nothing of a document but attributes of
    its [img] tags: with these erased, the tree is the same before and
    after; a document without an [img] tag comes out as it went in. *)
Theorem embed_soup_shape {P : Pillow} (w : World) (base_path : option string)
    (soup : list node) :
  map erase_img_attrs (embed_soup w base_path soup) = map erase_img_attrs soup /\
  (find_all_img_soup soup = [] -> embed_soup w base_path soup = soup).
Proof.
  unfold embed_soup, find_all_img_soup. split.
  - rewrite map_map. apply map_ext. intros n. apply erase_embed_node.
  - induction soup as [|n soup IH]; [done|].
    cbn. intros [Hn Hs]%app_eq_nil.
    by rewrite (embed_node_no_img _ _ _ Hn), (IH Hs).
Qed.

Lemma embed_soup_shape_witness :
  embed_soup Toy.world (Some "doc/report.md")
    [Tag "h1" [("id", "top")] [Text "Report"]; Text "no pictures"]
  = [Tag "h1" [("id", "top")] [Text "Report"]; Text "no pictures"].
Proof.
  destruct (@embed_soup_shape Toy.pillow Toy.world (Some "doc/report.md")
              [Tag "h1" [("id", "top")] [Text "Report"]; Text "no pictures"])
    as [_ Hsame].
  apply Hsame. reflexivity.
Defined.

(** ** More on the resolver *)

Lemma rfind_no_char c (s : string) :
  Py.has_char c s = false -> Py.rfind c s = None.
Proof.
  induction s as [|a s IH]; cbn; [done|].
  intros [-> Hs]%orb_false_elim. by rewrite (IH Hs).
Qed.

Lemma dirname_no_slash (p : string) :
  Py.has_char "/" p = false -> posixpath.dirname p = "".
Proof.
  intros Hp. unfold posixpath.dirname. rewrite (rfind_no_char _ _ Hp).
  by destruct p.
Qed.

Lemma join_empty_l (b : string) : posixpath.join "" b = b.
Proof. unfold posixpath.join. by destruct (Py.startswith b "/"). Qed.

(** X11.  A reference that is not network-schemed is looked up as it is
    written when it is absolute, when no source document is given (or an
    empty one), and when the path of the source document has no directory
    part. *)
Theorem local_path_as_written (url : string) :
  (forall base_path, posixpath.isabs url = true -> local_path url base_path = url) /\
  local_path url None = url /\
  local_path url (Some "") = url /\
  (forall base, Py.has_char "/" base = false -> local_path url (Some base) = url).
Proof.
  unfold local_path. split; [|split; [|split]].
  - intros [base|] Ha; [|done]. rewrite Ha. by rewrite andb_false_r.
  - done.
  - done.
  - intros base Hb. destruct (Py.truthy base && negb (posixpath.isabs url)); [|done].
    by rewrite (dirname_no_slash _ Hb), join_empty_l.
Qed.

Lemma local_path_as_written_witness :
  local_path "/srv/img/a.png" (Some "doc/report.md") = "/srv/img/a.png" /\
  local_path "img/a.png" (Some "report.md") = "img/a.png".
Proof.
  split.
  - destruct (local_path_as_written "/srv/img/a.png") as (Habs & _).
    apply Habs. reflexivity.
  - destruct (local_path_as_written "img/a.png") as (_ & _ & _ & Hflat).
    apply Hflat. reflexivity.
Defined.

(** ** More on the transcoder *)




(** *** The sign of a float *)

Lemma binary_round_aux_nonneg mx ex lx :
  float_nonneg (binary_round_aux PyFloat.prec PyFloat.emax false mx ex lx).
Proof.
  unfold binary_round_aux.
  destruct (shr_fexp _ _ mx ex lx) as [mrs' e'].
  destruct (shr_fexp _ _ _ e' loc_Exact) as [mrs'' e''].
  destruct (shr_m mrs''); [done| |done].
  by destruct (Z.leb _ _).
Qed.

Lemma of_int_nonneg (n : Z) x :
  0 <= n -> PyFloat.of_int n = Some x -> float_nonneg x.
Proof.
  intros Hn. unfold PyFloat.of_int, binary_normalize.
  destruct n as [|p|p]; [by intros [= <-]| |lia].
  unfold binary_round. destruct (shl_align _ _ _) as [mz ez].
  pose proof (binary_round_aux_nonneg (Zpos mz) ez loc_Exact) as Hb.
  destruct (binary_round_aux _ _ _ _ _ _); intros [= <-]; done.
Qed.

Lemma truediv_nonneg (a b : Z) x :
  0 < a -> 0 < b -> PyFloat.truediv a b = Some x -> float_nonneg x.
Proof.
  intros Ha Hb. unfold PyFloat.truediv.
  destruct (b =? 0); [done|].
  destruct a as [|p|p]; [lia| |lia]. destruct b as [|q|q]; [lia| |lia].
  cbn [PyFloat.exact_int SFdiv xorb].
  destruct (SFdiv_core_binary _ _ _ _ _ _) as [[mz ez] lz].
  pose proof (binary_round_aux_nonneg mz ez lz) as Hr.
  destruct (binary_round_aux _ _ _ _ _ _); intros [= <-]; done.
Qed.

Lemma SFmul_nonneg (x y : spec_float) :
  float_nonneg x -> float_nonneg y ->
  float_nonneg (SFmul PyFloat.prec PyFloat.emax x y).
Proof.
  destruct x as [sx|sx| |sx mx ex], y as [sy|sy| |sy my ey]; cbn; try done.
  destruct sx, sy; try done. intros _ _. apply binary_round_aux_nonneg.
Qed.

Lemma to_int_nonneg (x : spec_float) k :
  float_nonneg x -> PyFloat.to_int x = Some k -> 0 <= k.
Proof.
  destruct x as [s|s| |s m e]; cbn; try done.
  - intros _ [= <-]. lia.
  - destruct s; [done|]. intros _ [= <-].
    destruct (0 <=? e).
    + apply Z.shiftl_nonneg. lia.
    + apply Z.shiftr_nonneg. lia.
Qed.

(** X13.  The height computed for a resize is never negative: for a
    height that is not negative and positive widths,
    [int(height * (max_width / width))], when it is computed at all, is at
    least 0. *)
Theorem new_height_nonneg (height max_width width k : Z) :
  0 <= height -> 0 < max_width -> 0 < width ->
  new_height height max_width width = Some k ->
  0 <= k.
Proof.
  intros Hh Hm Hw. unfold new_height, PyFloat.int_mul.
  destruct (PyFloat.truediv max_width width) as [ratio|] eqn:Er; [|done].
  cbn. destruct (PyFloat.of_int height) as [fh|] eqn:Eh; [|done].
  cbn. apply to_int_nonneg, SFmul_nonneg.
  - by apply (of_int_nonneg height).
  - by apply (truediv_nonneg max_width width).
Qed.

Lemma new_height_nonneg_witness :
  new_height 600 800 1000 = Some 480 /\ 0 <= 480.
Proof.
  assert (new_height 600 800 1000 = Some 480) as E by (vm_compute; reflexivity).
  split; [exact E|].
  apply (new_height_nonneg 600 800 1000 480); [lia|lia|lia|exact E].
Defined.

(** ** More on the document assembler *)

Lemma text_before_found (pat t Y : string) c (pat' : string) :
  pat = String c pat' ->
  Py.has_char c t = false -> String.prefix pat Y = true ->
  text_before pat (t ++ Y) = Some t.
Proof.
  intros -> Ht HY. induction t as [|a t IH].
  - rewrite str_app_nil_l. destruct Y; cbn in *; [done|]. by rewrite HY.
  - rewrite str_app_cons.
    cbn in Ht. apply orb_false_elim in Ht as [Ha Ht].
    cbn [text_before String.prefix].
    destruct (ascii_dec c a) as [->|_]; [by rewrite Ascii.eqb_refl in Ha|].
    by rewrite (IH Ht).
Qed.

(** X14.  The title is put into the document as it is given: for a title
    without [<], the [title] element of the assembled document holds
    exactly the title, whatever the fragment. *)
Theorem create_full_html_places_title (html_content title : string) :
  Py.has_char "<" title = false ->
  document_title (create_full_html html_content (Some title)) = Some title.
Proof.
  intros Ht. unfold document_title, create_full_html.
  change (default default_title (Some title)) with title.
  match goal with |- context [String.append title ?Y] => set (Y0 := Y) end.
  replace (text_after "<title>" _) with (Some (title ++ Y0))
    by (by destruct title).
  cbn [mbind option_bind].
  by apply (text_before_found _ _ _ "<" "/title>").
Qed.

Lemma create_full_html_places_title_witness :
  document_title (create_full_html "<p>text</p>" (Some "Annual Report 2024"))
  = Some "Annual Report 2024".
Proof. apply create_full_html_places_title. reflexivity. Defined.

(** ** The front end *)

Lemma str_length_drop (i : nat) (s : string) :
  String.length (Py.drop i s) = (String.length s - i)%nat.
Proof.
  revert i. induction s as [|a s IH]; intros [|i]; cbn; try done.
Qed.

Lemma truthy_length (s : string) :
  Py.truthy s = true <-> (0 < String.length s)%nat.
Proof. destruct s; cbn; split; intros; (done || lia). Qed.

(** The name [with_suffix] gives to a path with a name is its stem followed
    by the suffix. *)
Lemma with_suffix_pdf_parts (p : PurePath) :
  pathlib.name p <> "" ->
  with_suffix p ".pdf"
  = Ok {| root := root p;
          tail := removelast (tail p) ++ [pathlib.stem p ++ ".pdf"] |}.
Proof.
  intros Hn. unfold with_suffix. cbn [Py.has_char Ascii.eqb Bool.eqb orb].
  change (Py.truthy ".pdf" && negb (Py.startswith ".pdf" ".") || String.eqb ".pdf" ".")
    with false.
  cbn iota.
  destruct (Py.truthy (pathlib.name p)) eqn:Et;
    [|by destruct (pathlib.name p)].
  cbn [negb]. do 3 f_equal.
  unfold pathlib.suffix, pathlib.stem.
  destruct (Py.rfind "." (pathlib.name p)) as [i|]; [|done].
  case_bool_decide as Hi; [|done].
  assert (Py.truthy (Py.drop i (pathlib.name p)) = true) as ->.
  { apply truthy_length. rewrite str_length_drop.
    clear -Hi. lia. }
  cbn [negb]. rewrite str_length_drop. do 2 f_equal.
  f_equal. clear -Hi. lia.
Qed.

(** X15.  The output name the front end proposes for a chosen markdown
    file is the text of the path the converter uses when it is given no
    destination; for a path without a file name, proposing raises. *)
Theorem proposed_output_is_default (file_path : string) :
  (pathlib.name (pathlib.Path file_path) <> "" ->
     proposed_output file_path = Ok (pathlib.str (default_output file_path))) /\
  (pathlib.name (pathlib.Path file_path) = "" ->
     exists e, proposed_output file_path = Raise e).
Proof.
  unfold proposed_output. split.
  - intros Hn. rewrite (with_suffix_pdf_parts _ Hn).
    by rewrite default_output_parts.
  - intros Hn. unfold with_suffix. cbn [Py.has_char Ascii.eqb Bool.eqb orb].
    change (Py.truthy ".pdf" && negb (Py.startswith ".pdf" ".") || String.eqb ".pdf" ".")
      with false.
    cbn iota. rewrite Hn. cbn. eauto.
Qed.

Lemma proposed_output_is_default_witness :
  proposed_output "notes/week 1/plan.v2.md" = Ok "notes/week 1/plan.v2.pdf" /\
  exists e, proposed_output "/" = Raise e.
Proof.
  split.
  - destruct (proposed_output_is_default "notes/week 1/plan.v2.md") as [Hd _].
    rewrite Hd; [vm_compute; reflexivity|vm_compute; discriminate].
  - destruct (proposed_output_is_default "/") as [_ Hr].
    apply Hr. reflexivity.
Defined.

(** X16.  The options the front end builds from its settings replace all
    of the options of a new converter, whatever the settings: after the
    merge the converter's options are the front end's, and a run of
    wkhtmltopdf started by the conversion thread gets exactly these. *)
Theorem front_end_options_replace_defaults
    {P : Pillow} {B : BeautifulSoup} {Mk : Markdown}
    (s : Settings) (path : option string) :
  pdf_options (update_options (get_pdf_options s) (new_converter path))
  = get_pdf_options s /\
  (forall (w : World) (input_file output_file title : string),
     exists r c' w',
       thread_convert (get_pdf_options s) input_file output_file title
         (new_converter path, w) = (r, (c', w')) /\
       (render_log w' = render_log w \/
        exists call,
          render_log w' = call :: render_log w /\
          rc_options call = get_pdf_options s /\
          rc_configuration call = config (new_converter path))).
Proof.
  assert (pdf_options (update_options (get_pdf_options s) (new_converter path))
          = get_pdf_options s) as Hopts by (vm_compute; reflexivity).
  split; [exact Hopts|].
  intros w input_file output_file title.
  unfold thread_convert. run_body.
  destruct (convert_to_pdf_cases input_file (Some (PStr output_file)) (Some title)
              (update_options (get_pdf_options s) (new_converter path)) w)
    as (r & c' & w' & Hrun & _ & _ & Hcases).
  exists r, c', w'. split; [exact Hrun|].
  destruct Hcases as [[_ ?]|[(n & rest & _ & _ & ->)|
                             (n & rest & html & _ & Hlog & _ & _)]].
  - by left.
  - left. by rewrite cleanup_world_render_log.
  - right. eexists. split; [exact Hlog|]. split; [exact Hopts|done].
Qed.
